(** * PubMed image/caption retrieval: a model of [pubmed_images_caption.py]

    The script searches PMC for a term, fetches the articles' metadata in
    batches, scrapes every article page for CDN image links, joins each
    figure's graphic reference with those links and writes the records to a
    JSON file.

    The model follows the script function by function.  Network, clock and
    file system are an oracle ([world]) consulted with the history of the
    run so far; every request, diagnostic line and file write is recorded in
    that history.  Exceptions the script does not catch end the run: both
    parsers, the join of the identifiers and the opening of the output file
    stand outside every handler.  Two things are taken for granted
    throughout: standard output accepts every diagnostic line, and a file
    that could be opened is written in full. *)

From Stdlib Require Import ZArith Lia String Ascii List.
From stdpp Require Import base option list strings gmap pretty.
Import ListNotations.
Open Scope string_scope.
Open Scope list_scope.
Open Scope Z_scope.

(** ** Python values *)

(** A value that is a [str] or [None] (an element's [.text], a dictionary
    [.get]). *)
Abbreviation pystr := (option string).

(** Truthiness of a [str]-or-[None]: [None] and the empty string are false. *)
Definition truthy (s : pystr) : bool :=
  match s with
  | Some (String _ _) => true
  | _ => false
  end.

(** [str(x)] inside an f-string. *)
Definition py_str (s : pystr) : string := default "None" s.

(** [needle in hay] on strings: substring containment. *)
Fixpoint contains (needle hay : string) : bool :=
  String.prefix needle hay ||
  match hay with
  | EmptyString => false
  | String _ hay' => contains needle hay'
  end.

(** [s.startswith(p)] *)
Definition startswith (s p : string) : bool := String.prefix p s.

(** [sep.join(xs)]: a [TypeError] (here [None]) when an item is not a [str]. *)
Fixpoint join (sep : string) (xs : list pystr) : option string :=
  match xs with
  | [] => Some ""
  | [x] => x
  | x :: rest =>
      match x, join sep rest with
      | Some s, Some r => Some (s +:+ sep +:+ r)
      | _, _ => None
      end
  end.

(** [range(start, stop, step)] as the [for] loop consumes it: values are
    produced while they are on the near side of [stop].  [fuel] bounds the
    number of values; [py_range] supplies the distance to [stop], which is
    enough for any non-zero step. *)
Fixpoint range_loop (fuel : nat) (i stop step : Z) : list Z :=
  match fuel with
  | O => []
  | S fuel' =>
      if (if 0 <? step then i <? stop else stop <? i)
      then i :: range_loop fuel' (i + step) stop step
      else []
  end.

(** [None] is the [ValueError] of a zero step. *)
Definition py_range (start stop step : Z) : option (list Z) :=
  if step =? 0 then None
  else Some (range_loop (Z.to_nat (Z.abs (stop - start))) start stop step).

(** [xs[lo:hi]] with Python's clamping of out-of-range and negative bounds. *)
Definition clamp_index (n i : Z) : Z :=
  if i <? 0 then Z.max (i + n) 0 else Z.min i n.

Definition py_slice {A} (xs : list A) (lo hi : Z) : list A :=
  let n := Z.of_nat (length xs) in
  let lo' := clamp_index n lo in
  let hi' := clamp_index n hi in
  take (Z.to_nat (hi' - lo')) (drop (Z.to_nat lo') xs).

(** ** Parsed documents (ElementTree, BeautifulSoup) *)

#[warnings="-register-all"]
Inductive element : Type :=
  Element (tag : string) (attrib : gmap string string)
          (text : pystr) (children : list element).

Definition tag (e : element) : string :=
  match e with Element t _ _ _ => t end.
Definition attrib (e : element) : gmap string string :=
  match e with Element _ a _ _ => a end.
Definition text (e : element) : pystr :=
  match e with Element _ _ x _ => x end.
Definition children (e : element) : list element :=
  match e with Element _ _ _ cs => cs end.

(** [e.iter()]: the element and all its descendants in document order. *)
Fixpoint iter (e : element) : list element :=
  match e with
  | Element _ _ _ cs => e :: flat_map iter cs
  end.

(** The path steps the script's queries are made of, as ElementPath compiles
    them: [//tag], [/tag] and the predicate [[@key='value']]. *)
Inductive step : Type :=
  | Descendant (t : string)
  | Child (t : string)
  | AttrEq (key value : string).

Definition has_tag (t : string) (e : element) : bool := bool_decide (tag e = t).

Definition select (s : step) (context : list element) : list element :=
  match s with
  | Descendant t =>
      flat_map (fun e => List.filter (has_tag t) (flat_map iter (children e))) context
  | Child t =>
      flat_map (fun e => List.filter (has_tag t) (children e)) context
  | AttrEq k v =>
      List.filter (fun e => bool_decide (attrib e !! k = Some v)) context
  end.

Definition findall (path : list step) (e : element) : list element :=
  foldl (fun context s => select s context) [e] path.

Definition find (path : list step) (e : element) : option element :=
  head (findall path e).

(** [soup.find_all(name)] *)
Definition find_all (name : string) (soup : element) : list element :=
  List.filter (has_tag name) (flat_map iter (children soup)).

(** The queries of the script. *)
Definition path_Id : list step := [Descendant "Id"].
Definition path_article : list step := [Descendant "article"].
Definition path_pmc_id : list step :=
  [Descendant "article-id"; AttrEq "pub-id-type" "pmc"].
Definition path_article_title : list step := [Descendant "article-title"].
Definition path_abstract : list step := [Descendant "abstract"].
Definition path_fig : list step := [Descendant "fig"].
Definition path_caption_p : list step := [Descendant "caption"; Child "p"].
Definition path_graphic : list step := [Descendant "graphic"].

Definition xlink_href : string := "{http://www.w3.org/1999/xlink}href".

(** [elem.text if elem is not None else fallback] *)
Definition text_or (fallback : string) (elem : option element) : pystr :=
  match elem with
  | Some e => text e
  | None => Some fallback
  end.

(** ** Output records *)

(** One dictionary of [article_details]. *)
Record article_record : Type := ArticleRecord {
  pmcid : pystr;
  title : pystr;
  abstract : pystr;
  captions : list pystr;
  images : list string
}.

(** [args] of [main], as [parse_args] returns it. *)
Record args : Type := Args {
  term : string;
  retmax : Z
}.

(** ** The outside world *)

(** What a response body is to the two parsers: [ET.fromstring] raises
    [ParseError] on a body that is not well-formed XML ([as_xml] is [None]);
    BeautifulSoup's [html.parser] is lenient but not total, it rejects some
    markup, such as an unknown marked section ([as_html] is [None]). *)
Record body : Type := Body {
  as_xml : option element;
  as_html : option element
}.

(** [requests.get]: a [RequestException], or a response with its status. *)
Inductive http_result : Type :=
  | ConnectionError (e : string)
  | HttpResponse (status_code : Z) (content : body).

(** The exception the handlers catch: [requests.get] failed, or
    [raise_for_status] met an error status. *)
Inductive request_exception : Type :=
  | RequestFailed (e : string)
  | HTTPError (status_code : Z).

(** Diagnostic lines written by [print]. *)
Inductive message : Type :=
  | FailedPage (pmc_id : pystr) (e : request_exception)
  | FailedIds (e : request_exception)
  | FailedBatch (batch : list pystr) (e : request_exception)
  | Retrieved (n : nat) (pmcids : list pystr)
  | Saved (filename : string).

Inductive event : Type :=
  | Get (url : string)
  | Print (m : message)
  | WriteFile (filename : string) (data : list article_record).

Abbreviation trace := (list event).

(** The oracle sees the history of the run, so it may answer the same
    request differently at different times. *)
Record world : Type := World {
  http_get : trace -> string -> http_result;
  clock : trace -> string;
  can_open : trace -> string -> bool
}.

(** ** Computations: a history, and exceptions nobody catches *)

Inductive exn : Type :=
  | ParseError
  | ParserRejectedMarkup
  | TypeError
  | ValueError
  | OSError.

Inductive outcome (A : Type) : Type :=
  | Returns (a : A)
  | Raises (e : exn).
Arguments Returns {A} a.
Arguments Raises {A} e.

Definition M (A : Type) : Type := trace -> outcome A * trace.

Definition ret {A} (a : A) : M A := fun t => (Returns a, t).

Definition bind {A B} (m : M A) (k : A -> M B) : M B :=
  fun t =>
    match m t with
    | (Returns a, t') => k a t'
    | (Raises e, t') => (Raises e, t')
    end.

Definition raise {A} (e : exn) : M A := fun t => (Raises e, t).

Definition emit (ev : event) : M unit := fun t => (Returns tt, t ++ [ev]).

Notation "'let!' x ':=' m 'in' k" := (bind m (fun x => k))
  (at level 10, x name, m at level 100, k at level 200).

(** [print(...)].  Standard output is taken to accept every line: a stream
    that cannot encode or take the text is outside this model. *)
Definition print (m : message) : M unit := emit (Print m).

(** [for x in xs: s = body(s, x)] *)
Fixpoint for_each {A S} (xs : list A) (body : S -> A -> M S) (s : S) : M S :=
  match xs with
  | [] => ret s
  | x :: xs' => let! s' := body s x in for_each xs' body s'
  end.

(** [ET.fromstring(response.content)] *)
Definition fromstring (content : body) : M element :=
  match as_xml content with
  | Some root => ret root
  | None => raise ParseError
  end.

(** [BeautifulSoup(response.content, 'html.parser')] *)
Definition BeautifulSoup (content : body) : M element :=
  match as_html content with
  | Some soup => ret soup
  | None => raise ParserRejectedMarkup
  end.

(** The three URLs the script builds with f-strings. *)
Definition page_url (pmc_id : pystr) : string :=
  "https://www.ncbi.nlm.nih.gov/pmc/articles/PMC" +:+ py_str pmc_id +:+ "/".

Definition esearch_url (db term : string) (retmax : Z) : string :=
  "https://eutils.ncbi.nlm.nih.gov/entrez/eutils/esearch.fcgi?db=" +:+ db
  +:+ "&term=" +:+ term +:+ "&retmax=" +:+ pretty retmax.

Definition efetch_url (ids : string) : string :=
  "https://eutils.ncbi.nlm.nih.gov/entrez/eutils/efetch.fcgi?db=pmc&id="
  +:+ ids +:+ "&retmode=xml".

(** The values the loop variable [batch] takes (lines 82-83), in order;
    [None] when [range] rejects the step. *)
Definition batches (pmcids : list pystr) (batch_size : Z) : option (list (list pystr)) :=
  match py_range 0 (Z.of_nat (length pmcids)) batch_size with
  | None => None
  | Some starts =>
      Some (map (fun batch_start => py_slice pmcids batch_start (batch_start + batch_size)) starts)
  end.

Section Script.
Variable w : world.

(** [raise_for_status]: 4xx and 5xx are [HTTPError]s. *)
Definition is_error_status (status_code : Z) : bool :=
  (400 <=? status_code) && (status_code <? 600).

(** The guarded request of all three stages:
    [try: response = requests.get(url); response.raise_for_status()
     except RequestException as e: ...];
    [inl e] is the branch of the handler. *)
Definition try_get (url : string) : M (request_exception + body) :=
  fun t =>
    let t' := t ++ [Get url] in
    match http_get w t url with
    | ConnectionError e => (Returns (inl (RequestFailed e)), t')
    | HttpResponse status_code content =>
        if is_error_status status_code
        then (Returns (inl (HTTPError status_code)), t')
        else (Returns (inr content), t')
    end.

(** The body of the [img] loop of [fetch_cdn_links]. *)
Definition cdn_step (cdn_links : list string) (img_tag : element) : list string :=
  let src := attrib img_tag !! "src" in
  match src with
  | Some s =>
      if truthy src && contains "cdn.ncbi.nlm.nih.gov" s then
        let s := if startswith s "//" then "https:" +:+ s else s in
        cdn_links ++ [s]
      else cdn_links
  | None => cdn_links
  end.

Definition cdn_links_of (soup : element) : list string :=
  foldl cdn_step [] (find_all "img" soup).

Definition fetch_cdn_links (pmc_id : pystr) : M (list string) :=
  let url := page_url pmc_id in
  let! r := try_get url in
  match r with
  | inl e => let! _ := print (FailedPage pmc_id e) in ret []
  | inr content =>
      let! soup := BeautifulSoup content in
      ret (cdn_links_of soup)
  end.

Definition fetch_pmc_ids (term : string) (db : string) (retmax : Z) : M (list pystr) :=
  let esearch_url := esearch_url db term retmax in
  let! r := try_get esearch_url in
  match r with
  | inl e => let! _ := print (FailedIds e) in ret []
  | inr content =>
      let! root := fromstring content in
      ret (map text (findall path_Id root))
  end.

(** [next((url for url in cdn_links if image_href in url), "No Match Found")] *)
Definition first_match (image_href : string) (cdn_links : list string) : string :=
  default "No Match Found" (List.find (contains image_href) cdn_links).

(** Lines 115-121: the image entry of one figure. *)
Definition resolve_image (cdn_links : list string) (fig : element) : string :=
  let graphic := find path_graphic fig in
  let image_url := "No image URL" in
  match graphic with
  | Some g =>
      let image_href := attrib g !! xlink_href in
      match image_href with
      | Some href =>
          if truthy image_href then first_match href cdn_links else image_url
      | None => image_url
      end
  | None => image_url
  end.

(** The body of the [fig] loop: one append to each of the two lists. *)
Definition fig_step (cdn_links : list string)
    (acc : list pystr * list string) (fig : element) : list pystr * list string :=
  let caption := text_or "No caption" (find path_caption_p fig) in
  let image_url := resolve_image cdn_links fig in
  (acc.1 ++ [caption], acc.2 ++ [image_url]).

(** The body of the [article] loop. *)
Definition article_step (article_details : list article_record)
    (article : element) : M (list article_record) :=
  let pmcid := text_or "No PMCID" (find path_pmc_id article) in
  let! cdn_links := fetch_cdn_links pmcid in
  let title := text_or "No title" (find path_article_title article) in
  let abstract := text_or "No abstract" (find path_abstract article) in
  let figs := foldl (fig_step cdn_links) ([], []) (findall path_fig article) in
  ret (article_details ++ [ArticleRecord pmcid title abstract figs.1 figs.2]).

(** The body of the batch loop from line 84 on; the handler's [continue]
    leaves [article_details] as it was. *)
Definition process_batch (article_details : list article_record)
    (batch : list pystr) : M (list article_record) :=
  match join "," batch with
  | None => raise TypeError
  | Some ids =>
      let efetch_url := efetch_url ids in
      let! r := try_get efetch_url in
      match r with
      | inl e => let! _ := print (FailedBatch batch e) in ret article_details
      | inr content =>
          let! root := fromstring content in
          for_each (findall path_article root) article_step article_details
      end
  end.

Definition batch_step (pmcids : list pystr) (batch_size : Z)
    (article_details : list article_record) (batch_start : Z)
    : M (list article_record) :=
  let batch := py_slice pmcids batch_start (batch_start + batch_size) in
  process_batch article_details batch.

Definition fetch_article_details (pmcids : list pystr) (batch_size : Z)
    : M (list article_record) :=
  match py_range 0 (Z.of_nat (length pmcids)) batch_size with
  | None => raise ValueError
  | Some starts => for_each starts (batch_step pmcids batch_size) []
  end.

(** [datetime.now().strftime("%Y%m%d_%H%M%S")] *)
Definition now : M string := fun t => (Returns (clock w t), t).

(** [with open(filename, 'w') as f: json.dump(details, f, indent=4)].
    The records hold only strings and [None], which [json.dump] always
    serialises; a write that fails after the file was opened (a full disk)
    is outside this model. *)
Definition dump_to (filename : string) (details : list article_record) : M unit :=
  fun t =>
    if can_open w t filename
    then (Returns tt, t ++ [WriteFile filename details])
    else (Raises OSError, t).

Definition main (a : args) : M unit :=
  let! pmcids := fetch_pmc_ids (term a) "pmc" (retmax a) in
  let! _ := print (Retrieved (length pmcids) pmcids) in
  match pmcids with
  | [] => ret tt
  | _ :: _ =>
      let! details := fetch_article_details pmcids 5 in
      let! timestamp := now in
      let filename :=
        term a +:+ "_" +:+ pretty (retmax a) +:+ "_" +:+ timestamp +:+ ".json" in
      let! _ := dump_to filename details in
      print (Saved filename)
  end.

(** The process: a run from an empty history.  Returning from [main] is
    exit status 0, an uncaught exception is exit status 1. *)
Definition run (a : args) : outcome unit * trace := main a [].

Definition exit_status (a : args) : Z :=
  match (run a).1 with
  | Returns _ => 0
  | Raises _ => 1
  end.
End Script.

(** ** Specification vocabulary and sample documents *)

(** [s] occurs in [t]. *)
Definition substring_of (s t : string) : Prop :=
  exists a b, t = a +:+ s +:+ b.

Definition cdn_host : string := "cdn.ncbi.nlm.nih.gov".

(** [<t>x</t>] *)
Definition leaf (t x : string) : element := Element t ∅ (Some x) [].

(** [<graphic xlink:href="..."/>] *)
Definition graphic_with (href : string) : element :=
  Element "graphic" {[ xlink_href := href ]} None [].

(** [<graphic/>], no reference at all. *)
Definition graphic_bare : element := Element "graphic" ∅ None [].

(** [<fig><caption><p>cap</p></caption> g </fig>] *)
Definition fig_with (cap : string) (g : element) : element :=
  Element "fig" ∅ None [Element "caption" ∅ None [leaf "p" cap]; g].

(** [<img src="..."/>] *)
Definition img_with (src : string) : element :=
  Element "img" {[ "src" := src ]} None [].

Definition sample_links : list string :=
  ["https://cdn.ncbi.nlm.nih.gov/pmc/blobs/logo.png";
   "https://cdn.ncbi.nlm.nih.gov/pmc/blobs/g1.jpg";
   "https://cdn.ncbi.nlm.nih.gov/pmc/blobs/g1_large.jpg"].

Definition sample_ids : list pystr :=
  [Some "101"; Some "102"; Some "103"; Some "104"; Some "105"; Some "106"; Some "107"].

(** A world without network: every request is refused. *)
Definition offline : world :=
  World (fun _ _ => ConnectionError "connection refused")
        (fun _ => "20240101_000000")
        (fun _ _ => true).

(** [<fig><caption><p><bold>Figure 1.</bold></p></caption><graphic/></fig>]:
    the paragraph starts with a child element, so its [.text] is [None]. *)
Definition p_bold : element :=
  Element "p" ∅ None [leaf "bold" "Figure 1."].

Definition fig_bold_caption : element :=
  Element "fig" ∅ None [Element "caption" ∅ None [p_bold]; graphic_with "g1"].

(** An article whose only [article-id] is of type [pmid]. *)
Definition article_without_pmc_id : element :=
  Element "article" ∅ None
    [Element "front" ∅ None
       [Element "article-id" {[ "pub-id-type" := "pmid" ]} (Some "31415926") [];
        leaf "article-title" "A title"];
     Element "body" ∅ None [fig_with "Figure 1" (graphic_with "g1")]].

(** The record of an article, given the links its page gave. *)
Definition record_of (article : element) (cdn_links : list string) : article_record :=
  let figs := findall path_fig article in
  ArticleRecord
    (text_or "No PMCID" (find path_pmc_id article))
    (text_or "No title" (find path_article_title article))
    (text_or "No abstract" (find path_abstract article))
    (map (fun fig => text_or "No caption" (find path_caption_p fig)) figs)
    (map (resolve_image cdn_links) figs).

(** The end-to-end scenario: the search returns 111 and 222, the metadata
    document has one article with one figure for each, the page of 111 shows
    the figure's image and the page of 222 shows no image. *)
Definition empty_page : element := Element "[document]" ∅ None [].

Definition xml_body (root : element) : body := Body (Some root) (Some empty_page).
Definition html_body (soup : element) : body := Body None (Some soup).

(** A body that neither parser takes, such as [<![x[ y]]>]. *)
Definition rejected_body : body := Body None None.

Definition scenario_article (id href : string) : element :=
  Element "article" ∅ None
    [Element "front" ∅ None
       [Element "article-id" {[ "pub-id-type" := "pmid" ]} (Some "31415926") [];
        Element "article-id" {[ "pub-id-type" := "pmc" ]} (Some id) [];
        leaf "article-title" "A title";
        Element "abstract" ∅ None [leaf "p" "An abstract"]];
     Element "body" ∅ None [fig_with "Figure 1" (graphic_with href)]].

Definition scenario_search : element :=
  Element "eSearchResult" ∅ None
    [leaf "Count" "2";
     Element "IdList" ∅ None [leaf "Id" "111"; leaf "Id" "222"]].

Definition scenario_articles : element :=
  Element "pmc-articleset" ∅ None
    [scenario_article "111" "g1"; scenario_article "222" "g2"].

Definition scenario_page : element :=
  Element "[document]" ∅ None
    [Element "html" ∅ None
       [img_with "/static/logo.png";
        img_with "//cdn.ncbi.nlm.nih.gov/pmc/blobs/g1.jpg"]].

Definition scenario_args : args := Args "cancer imaging" 2.

Definition scenario : world :=
  World
    (fun _ url =>
       if bool_decide (url = esearch_url "pmc" "cancer imaging" 2)
       then HttpResponse 200 (xml_body scenario_search)
       else if bool_decide (url = efetch_url "111,222")
       then HttpResponse 200 (xml_body scenario_articles)
       else if bool_decide (url = page_url (Some "111"))
       then HttpResponse 200 (html_body scenario_page)
       else if bool_decide (url = page_url (Some "222"))
       then HttpResponse 200 (html_body empty_page)
       else HttpResponse 404 (html_body empty_page))
    (fun _ => "20240101_000000")
    (fun _ _ => true).

Definition scenario_details : list article_record :=
  [ArticleRecord (Some "111") (Some "A title") None [Some "Figure 1"]
     ["https://cdn.ncbi.nlm.nih.gov/pmc/blobs/g1.jpg"];
   ArticleRecord (Some "222") (Some "A title") None [Some "Figure 1"]
     ["No Match Found"]].

(** A request that ends in the handler: no response, or an error status. *)
Definition failed (r : http_result) : bool :=
  match r with
  | ConnectionError _ => true
  | HttpResponse status_code _ => is_error_status status_code
  end.

(** [acc] followed by what a computation returns. *)
Definition prepend {A} (acc : list A) (r : outcome (list A) * trace)
    : outcome (list A) * trace :=
  match r with
  | (Returns l, t) => (Returns (acc ++ l), t)
  | (Raises e, t) => (Raises e, t)
  end.

(** The metadata service is down for the first batch of [sample_ids] and
    answers the second. *)
Definition first_batch_down : world :=
  World
    (fun _ url =>
       if bool_decide (url = efetch_url "101,102,103,104,105")
       then HttpResponse 503 (html_body empty_page)
       else if bool_decide (url = efetch_url "106,107")
       then HttpResponse 200 (xml_body scenario_articles)
       else ConnectionError "timed out")
    (fun _ => "20240101_000000")
    (fun _ _ => true).

(** The E-utilities endpoints (search and metadata), whose bodies go
    through [ET.fromstring]. *)
Definition eutils_url (url : string) : bool :=
  startswith url "https://eutils.ncbi.nlm.nih.gov/entrez/eutils/".




(** The search endpoint answers 200 with a body that is not XML. *)
Definition garbled_search : world :=
  World (fun _ _ => HttpResponse 200 (html_body empty_page))
        (fun _ => "20240101_000000")
        (fun _ _ => true).

(** ** Further vocabulary: documents, and what a history contains *)

(** A search result whose [IdList] holds the given identifiers:
    [<eSearchResult><Count>n</Count><IdList><Id>..</Id>..</IdList></eSearchResult>] *)
Definition esearch_document (count : string) (ids : list string) : element :=
  Element "eSearchResult" ∅ None
    [leaf "Count" count; Element "IdList" ∅ None (map (leaf "Id") ids)].

(** Requests for an article page, requests to the E-utilities, file writes. *)
Definition is_page_get (ev : event) : bool :=
  match ev with
  | Get url => negb (eutils_url url)
  | _ => false
  end.

Definition is_eutils_get (ev : event) : bool :=
  match ev with
  | Get url => eutils_url url
  | _ => false
  end.

Definition is_write (ev : event) : bool :=
  match ev with
  | WriteFile _ _ => true
  | _ => false
  end.

Definition count (p : event -> bool) (t : trace) : nat :=
  length (List.filter p t).

(** The name of the output file (line 156). *)
Definition output_filename (a : args) (timestamp : string) : string :=
  term a +:+ "_" +:+ pretty (retmax a) +:+ "_" +:+ timestamp +:+ ".json".

(** The scenario on a file system that refuses the output file. *)
Definition read_only : world :=
  World (http_get scenario) (clock scenario) (fun _ _ => false).


(** The metadata service answers the first batch of [sample_ids] and
    sends a body that is not XML for the second. *)
Definition second_batch_garbled : world :=
  World
    (fun _ url =>
       if bool_decide (url = efetch_url "101,102,103,104,105")
       then HttpResponse 200 (xml_body scenario_articles)
       else if bool_decide (url = efetch_url "106,107")
       then HttpResponse 200 (html_body empty_page)
       else HttpResponse 404 (html_body empty_page))
    (fun _ => "20240101_000000")
    (fun _ _ => true).

(** The two sentinels of an image entry. *)
Definition image_sentinel (u : string) : Prop :=
  u = "No image URL" \/ u = "No Match Found".

(** ** Vocabulary for what a run received *)

(** The page of an article, if it arrives, is markup that [html.parser]
    takes. *)
Definition page_accepted (w : world) (t : trace) (pmc_id : pystr) : Prop :=
  forall status_code content,
    http_get w t (page_url pmc_id) = HttpResponse status_code content ->
    is_error_status status_code = false ->
    as_html content <> None.

(** Every page that arrives with a success status is markup that
    [html.parser] takes. *)
Definition html_well_formed (w : world) : Prop :=
  forall t url status_code content,
    eutils_url url = false ->
    http_get w t url = HttpResponse status_code content ->
    is_error_status status_code = false ->
    as_html content <> None.

(** In the history [t'], the request for [url] was made when the history
    was [h]. *)
Definition requested_at (t' h : trace) (url : string) : Prop :=
  exists rest, t' = h ++ Get url :: rest.

(** Between the histories [t] and [t'] a metadata request was answered with
    a document that holds [article]. *)
Definition received_article (w : world) (t t' : trace) (article : element) : Prop :=
  exists h ids status_code content root,
    t `prefix_of` h
    /\ requested_at t' h (efetch_url ids)
    /\ http_get w h (efetch_url ids) = HttpResponse status_code content
    /\ is_error_status status_code = false
    /\ as_xml content = Some root
    /\ article ∈ findall path_article root.

(** Between the histories [t] and [t'] the page of [pmc_id] was requested
    and gave the links [cdn_links]. *)
Definition received_links (w : world) (t t' : trace) (pmc_id : pystr)
    (cdn_links : list string) : Prop :=
  exists h h',
    t `prefix_of` h
    /\ requested_at t' h (page_url pmc_id)
    /\ fetch_cdn_links w pmc_id h = (Returns cdn_links, h').

(** A page that [html.parser] rejects, after a metadata response with one
    article. *)
Definition page_rejected : world :=
  World
    (fun _ url =>
       if bool_decide (url = efetch_url "111")
       then HttpResponse 200 (xml_body (Element "pmc-articleset" ∅ None
                                          [scenario_article "111" "g1"]))
       else HttpResponse 200 rejected_body)
    (fun _ => "20240101_000000")
    (fun _ _ => true).

(** The record [r] was made, between the histories [t] and [t'], from an
    article that a metadata response held and from the links that the page
    of its identifier gave. *)
Definition recorded (w : world) (t t' : trace) (r : article_record) : Prop :=
  exists article cdn_links,
    received_article w t t' article
    /\ received_links w t t' (pmcid r) cdn_links
    /\ r = record_of article cdn_links.

(** * Properties *)

(** Unfold the plumbing of a computation down to the oracle's answers. *)
Ltac unfold_script :=
  unfold bind, try_get, print, emit, ret, fromstring, BeautifulSoup, raise.

(** ** Strings *)

Lemma append_cons (c : ascii) (p r : string) :
  String c p +:+ r = String c (p +:+ r).
Proof. reflexivity. Qed.

Lemma prefix_app (p r : string) : String.prefix p (p +:+ r) = true.
Proof.
  induction p as [|c p IH]; simpl.
  - destruct r; reflexivity.
  - destruct (ascii_dec c c); [exact IH | congruence].
Qed.

Lemma prefix_inv (p s : string) :
  String.prefix p s = true -> exists r, s = p +:+ r.
Proof.
  revert s. induction p as [|c p IH]; intros s H.
  - exists s. reflexivity.
  - destruct s as [|d s]; simpl in H; [discriminate|].
    destruct (ascii_dec c d) as [->|]; [|discriminate].
    destruct (IH s H) as [r ->]. exists r. reflexivity.
Qed.

Lemma contains_spec (s t : string) :
  contains s t = true <-> substring_of s t.
Proof.
  split.
  - induction t as [|c t IH]; cbn [contains]; intros H.
    + rewrite orb_false_r in H. apply prefix_inv in H as [r ->].
      exists "", r. reflexivity.
    + apply orb_true_iff in H as [H|H].
      * apply prefix_inv in H as [r ->]. exists "", r. reflexivity.
      * destruct (IH H) as (a & b & ->). exists (String c a), b. reflexivity.
  - intros (a & b & ->). induction a as [|c a IH].
    + change ("" +:+ s +:+ b) with (s +:+ b).
      destruct (s +:+ b) eqn:E; cbn [contains]; rewrite <- E, prefix_app;
        reflexivity.
    + change (String c a +:+ s +:+ b) with (String c (a +:+ s +:+ b)).
      simpl contains. rewrite IH. apply orb_true_r.
Qed.

Lemma contains_app_l (s p t : string) :
  contains s t = true -> contains s (p +:+ t) = true.
Proof.
  rewrite !contains_spec. intros (a & b & ->).
  exists (p +:+ a), b. induction p as [|c p IH]; [reflexivity|].
  rewrite !append_cons, IH. reflexivity.
Qed.

Lemma contains_false (s t : string) :
  contains s t = false <-> ~ substring_of s t.
Proof.
  rewrite <- contains_spec. destruct (contains s t); split; intros H;
    try reflexivity; try discriminate; try (intros ?; discriminate).
  exfalso. apply H. reflexivity.
Qed.

(** ** The join of a figure with the CDN links *)

Lemma first_match_found (href : string) (before after : list string) (url : string) :
  Forall (fun u => ~ substring_of href u) before ->
  substring_of href url ->
  first_match href (before ++ url :: after) = url.
Proof.
  unfold first_match. induction 1 as [|u before Hu _ IH]; intros Hurl; simpl.
  - apply contains_spec in Hurl. rewrite Hurl. reflexivity.
  - apply contains_false in Hu. rewrite Hu. apply IH, Hurl.
Qed.

Lemma first_match_none (href : string) (cdn_links : list string) :
  Forall (fun u => ~ substring_of href u) cdn_links ->
  first_match href cdn_links = "No Match Found".
Proof.
  unfold first_match. induction 1 as [|u l Hu _ IH]; simpl; [reflexivity|].
  apply contains_false in Hu. rewrite Hu. exact IH.
Qed.

Lemma resolve_image_ref (cdn_links : list string) (fig g : element) (href : string) :
  find path_graphic fig = Some g ->
  attrib g !! xlink_href = Some href ->
  href <> "" ->
  resolve_image cdn_links fig = first_match href cdn_links.
Proof.
  intros Hg Hh Hne. unfold resolve_image. rewrite Hg, Hh.
  destruct href; [congruence | reflexivity].
Qed.

(** C1: a figure with a graphic reference resolves to the first CDN link
    that contains the reference as a substring; when no link contains it,
    and in particular when the link list is empty, the entry is the sentinel
    "No Match Found". *)
Theorem resolve_image_first_match
    (cdn_links : list string) (fig g : element) (href : string) :
  find path_graphic fig = Some g ->
  attrib g !! xlink_href = Some href ->
  href <> "" ->
  (forall before url after,
      cdn_links = before ++ url :: after ->
      Forall (fun u => ~ substring_of href u) before ->
      substring_of href url ->
      resolve_image cdn_links fig = url)
  /\ (Forall (fun u => ~ substring_of href u) cdn_links ->
      resolve_image cdn_links fig = "No Match Found")
  /\ resolve_image [] fig = "No Match Found".
Proof.
  intros Hg Hh Hne. repeat split.
  - intros before url after -> Hb Hu.
    rewrite (resolve_image_ref _ _ _ _ Hg Hh Hne).
    apply first_match_found; assumption.
  - intros Hall. rewrite (resolve_image_ref _ _ _ _ Hg Hh Hne).
    apply first_match_none, Hall.
  - rewrite (resolve_image_ref _ _ _ _ Hg Hh Hne). reflexivity.
Qed.

Lemma resolve_image_first_match_witness :
  resolve_image sample_links (fig_with "Figure 1" (graphic_with "g1"))
    = "https://cdn.ncbi.nlm.nih.gov/pmc/blobs/g1.jpg"
  /\ resolve_image ["https://cdn.ncbi.nlm.nih.gov/pmc/blobs/logo.png"]
       (fig_with "Figure 1" (graphic_with "g1")) = "No Match Found"
  /\ resolve_image [] (fig_with "Figure 1" (graphic_with "g1")) = "No Match Found".
Proof.
  assert (Hne : "g1" <> "") by discriminate.
  assert (Hlogo : ~ substring_of "g1" "https://cdn.ncbi.nlm.nih.gov/pmc/blobs/logo.png")
    by (apply contains_false; vm_compute; reflexivity).
  pose proof (resolve_image_first_match sample_links
                (fig_with "Figure 1" (graphic_with "g1")) (graphic_with "g1") "g1"
                eq_refl eq_refl Hne) as (Hfirst & _ & Hempty).
  pose proof (resolve_image_first_match
                ["https://cdn.ncbi.nlm.nih.gov/pmc/blobs/logo.png"]
                (fig_with "Figure 1" (graphic_with "g1")) (graphic_with "g1") "g1"
                eq_refl eq_refl Hne) as (_ & Hnone & _).
  split; [|split].
  - apply (Hfirst ["https://cdn.ncbi.nlm.nih.gov/pmc/blobs/logo.png"]
             "https://cdn.ncbi.nlm.nih.gov/pmc/blobs/g1.jpg"
             ["https://cdn.ncbi.nlm.nih.gov/pmc/blobs/g1_large.jpg"]).
    + reflexivity.
    + constructor; [exact Hlogo | constructor].
    + apply contains_spec. vm_compute. reflexivity.
  - apply Hnone. constructor; [exact Hlogo | constructor].
  - exact Hempty.
Defined.

(** Had the empty reference been matched, it would have picked the first
    link: the empty string occurs in every string. *)
Lemma first_match_empty_reference (url : string) (cdn_links : list string) :
  first_match "" (url :: cdn_links) = url.
Proof. unfold first_match. destruct url; reflexivity. Qed.

(** C10: a figure whose graphic element carries no reference, or an empty
    one, gets "No image URL" whatever the CDN links are, exactly as a figure
    without a graphic element does; the links play no part in the result. *)
Theorem resolve_image_no_reference
    (cdn_links : list string) (fig g : element) :
  find path_graphic fig = Some g ->
  attrib g !! xlink_href = None \/ attrib g !! xlink_href = Some "" ->
  resolve_image cdn_links fig = "No image URL"
  /\ (forall fig', find path_graphic fig' = None ->
        resolve_image cdn_links fig = resolve_image cdn_links fig')
  /\ (forall other_links, resolve_image other_links fig = resolve_image cdn_links fig).
Proof.
  intros Hg Hh.
  assert (H : forall links, resolve_image links fig = "No image URL").
  { intros links. unfold resolve_image. rewrite Hg.
    destruct Hh as [-> | ->]; reflexivity. }
  split; [apply H|]. split.
  - intros fig' Hnone. rewrite H. unfold resolve_image. rewrite Hnone. reflexivity.
  - intros other_links. rewrite !H. reflexivity.
Qed.

Lemma resolve_image_no_reference_witness :
  resolve_image sample_links (fig_with "Figure 1" (graphic_with "")) = "No image URL"
  /\ resolve_image sample_links (fig_with "Figure 1" graphic_bare) = "No image URL".
Proof.
  split.
  - apply (resolve_image_no_reference sample_links
             (fig_with "Figure 1" (graphic_with "")) (graphic_with "") eq_refl).
    right. vm_compute. reflexivity.
  - apply (resolve_image_no_reference sample_links
             (fig_with "Figure 1" graphic_bare) graphic_bare eq_refl).
    left. reflexivity.
Defined.

(** ** Image resolution *)

Lemma cdn_step_wanted (cdn_links : list string) (img_tag : element) (s : string) :
  attrib img_tag !! "src" = Some s ->
  cdn_step cdn_links img_tag =
    if contains cdn_host s
    then cdn_links ++ [if startswith s "//" then "https:" +:+ s else s]
    else cdn_links.
Proof.
  intros Hs. unfold cdn_step, cdn_host. rewrite Hs.
  destruct s; reflexivity.
Qed.

Lemma cdn_loop_spec (imgs : list element) (cdn_links : list string) :
  foldl cdn_step cdn_links imgs =
    cdn_links ++
    map (fun s => if startswith s "//" then "https:" +:+ s else s)
        (List.filter (contains cdn_host)
           (omap (fun img_tag => attrib img_tag !! "src") imgs)).
Proof.
  revert cdn_links. induction imgs as [|img imgs IH]; intros cdn_links.
  - simpl. rewrite app_nil_r. reflexivity.
  - cbn [foldl]. rewrite IH.
    change (omap ?f (img :: imgs))
      with (match f img with Some y => y :: omap f imgs | None => omap f imgs end).
    cbv beta.
    destruct (attrib img !! "src") as [s|] eqn:Hs.
    + rewrite (cdn_step_wanted _ _ _ Hs). cbn [List.filter].
      destruct (contains cdn_host s); [|reflexivity].
      rewrite <- app_assoc. reflexivity.
    + unfold cdn_step. rewrite Hs. reflexivity.
Qed.

Lemma normalized_link (s : string) :
  contains cdn_host s = true ->
  let u := if startswith s "//" then "https:" +:+ s else s in
  startswith u "//" = false /\ substring_of cdn_host u.
Proof.
  intros Hs u. subst u. destruct (startswith s "//") eqn:Hp.
  - split; [reflexivity|].
    apply contains_spec, contains_app_l, Hs.
  - split; [exact Hp | apply contains_spec, Hs].
Qed.

Lemma cdn_links_of_normalized (soup : element) :
  Forall (fun u => startswith u "//" = false /\ substring_of cdn_host u)
         (cdn_links_of soup).
Proof.
  unfold cdn_links_of. rewrite cdn_loop_spec. cbn [app].
  apply Forall_map, List.Forall_forall. intros s Hin.
  apply List.filter_In in Hin as [_ Hs]. apply normalized_link, Hs.
Qed.

(** C8: when the page of an article arrives and parses, [fetch_cdn_links]
    returns the [img] sources of that page that mention the
    content-delivery host, in page order, each one that begins with "//"
    prefixed with "https:".  Hence no link of the list is protocol-relative
    and every one mentions the host; "//cdn.ncbi.nlm.nih.gov/x.jpg" enters
    the list as "https://cdn.ncbi.nlm.nih.gov/x.jpg". *)
Theorem fetch_cdn_links_normalized (w : world) (pmc_id : pystr) (t : trace)
    (status_code : Z) (content : body) (soup : element) :
  http_get w t (page_url pmc_id) = HttpResponse status_code content ->
  is_error_status status_code = false ->
  as_html content = Some soup ->
  let links :=
    map (fun s => if startswith s "//" then "https:" +:+ s else s)
        (List.filter (contains cdn_host)
           (omap (fun img_tag => attrib img_tag !! "src") (find_all "img" soup))) in
  fetch_cdn_links w pmc_id t = (Returns links, t ++ [Get (page_url pmc_id)])
  /\ Forall (fun u => startswith u "//" = false /\ substring_of cdn_host u) links
  /\ (forall cdn_links,
        cdn_step cdn_links (img_with "//cdn.ncbi.nlm.nih.gov/x.jpg")
          = cdn_links ++ ["https://cdn.ncbi.nlm.nih.gov/x.jpg"]).
Proof.
  intros Hget Hstatus Hsoup links.
  assert (Hlinks : cdn_links_of soup = links)
    by (unfold cdn_links_of; rewrite cdn_loop_spec; reflexivity).
  split; [|split].
  - unfold fetch_cdn_links. unfold_script.
    rewrite Hget, Hstatus, Hsoup. unfold ret. rewrite Hlinks. reflexivity.
  - rewrite <- Hlinks. apply cdn_links_of_normalized.
  - intros cdn_links. reflexivity.
Qed.

Lemma fetch_cdn_links_normalized_witness :
  fetch_cdn_links scenario (Some "111") []
    = (Returns ["https://cdn.ncbi.nlm.nih.gov/pmc/blobs/g1.jpg"],
       [Get (page_url (Some "111"))])
  /\ Forall (fun u => startswith u "//" = false /\ substring_of cdn_host u)
            ["https://cdn.ncbi.nlm.nih.gov/pmc/blobs/g1.jpg"].
Proof.
  destruct (fetch_cdn_links_normalized scenario (Some "111") [] 200
              (html_body scenario_page) scenario_page eq_refl eq_refl eq_refl)
    as (Hrun & Hall & _).
  split; [exact Hrun | exact Hall].
Defined.

(** ** Batching *)

Lemma range_loop_spec (step : Z) (Hstep : 0 < step) (fuel : nat) :
  forall i stop,
    (Z.to_nat (stop - i) <= fuel)%nat ->
    range_loop fuel i stop step =
      map (fun k => i + Z.of_nat k * step)
          (seq 0 (Z.to_nat ((stop - i + step - 1) / step))).
Proof.
  induction fuel as [|fuel IH]; intros i stop Hfuel.
  - assert (Hq : (stop - i + step - 1) / step < 1)
      by (apply Z.div_lt_upper_bound; lia).
    replace (Z.to_nat ((stop - i + step - 1) / step)) with 0%nat by lia.
    reflexivity.
  - cbn [range_loop]. destruct (Z.ltb_spec 0 step) as [_|]; [|lia].
    destruct (Z.ltb_spec i stop) as [Hlt|Hge].
    + replace (stop - i + step - 1) with ((stop - (i + step) + step - 1) + 1 * step) by lia.
      rewrite Z.div_add by lia.
      assert (Hq : 0 <= (stop - (i + step) + step - 1) / step)
        by (apply Z.div_pos; lia).
      replace (Z.to_nat ((stop - (i + step) + step - 1) / step + 1))
        with (S (Z.to_nat ((stop - (i + step) + step - 1) / step))) by lia.
      cbn [seq map]. f_equal; [lia|].
      rewrite <- seq_shift, map_map, IH by lia.
      apply map_ext. intros k. lia.
    + assert (Hq : (stop - i + step - 1) / step < 1)
        by (apply Z.div_lt_upper_bound; lia).
      replace (Z.to_nat ((stop - i + step - 1) / step)) with 0%nat by lia.
      reflexivity.
Qed.

Lemma py_slice_nonneg {A} (xs : list A) (lo hi : Z) :
  0 <= lo <= hi ->
  py_slice xs lo hi = take (Z.to_nat (hi - lo)) (drop (Z.to_nat lo) xs).
Proof.
  intros [Hlo Hhi]. unfold py_slice, clamp_index.
  destruct (Z.ltb_spec lo 0); [lia|]. destruct (Z.ltb_spec hi 0); [lia|].
  destruct (Z.le_gt_cases lo (Z.of_nat (length xs))) as [Hin|Hout].
  - rewrite (Z.min_l lo) by lia.
    destruct (Z.le_gt_cases hi (Z.of_nat (length xs))).
    + rewrite Z.min_l by lia. reflexivity.
    + rewrite Z.min_r by lia.
      rewrite !take_ge; [reflexivity | |]; rewrite length_drop; lia.
  - rewrite !Z.min_r by lia. rewrite Z.sub_diag.
    rewrite (drop_ge xs (Z.to_nat lo)) by lia. rewrite take_nil. reflexivity.
Qed.

Lemma concat_chunks {A} (b : nat) (n : nat) :
  forall xs : list A,
    (length xs <= n * b)%nat ->
    concat (map (fun k => take b (drop (k * b) xs)) (seq 0 n)) = xs.
Proof.
  induction n as [|n IH]; intros xs Hlen.
  - destruct xs; [reflexivity | simpl in Hlen; lia].
  - cbn [seq map concat]. rewrite <- seq_shift, map_map.
    transitivity (take b xs ++ drop b xs); [|apply take_drop].
    f_equal.
    rewrite <- (IH (drop b xs)) by (rewrite length_drop; lia).
    f_equal. apply map_ext. intros k. rewrite drop_drop. reflexivity.
Qed.

Lemma for_each_map {A B S} (f : A -> B) (body : S -> B -> M S) (xs : list A) :
  forall s t,
    for_each (map f xs) body s t = for_each xs (fun s x => body s (f x)) s t.
Proof.
  induction xs as [|x xs IH]; intros s t; [reflexivity|].
  cbn [map for_each]. unfold bind.
  destruct (body s (f x) t) as [[s'|e] t']; [apply IH | reflexivity].
Qed.

Lemma batches_spec (pmcids : list pystr) (batch_size : Z) :
  0 < batch_size ->
  batches pmcids batch_size =
    Some (map (fun k => take (Z.to_nat batch_size)
                          (drop (k * Z.to_nat batch_size) pmcids))
              (seq 0 (Z.to_nat ((Z.of_nat (length pmcids) + batch_size - 1)
                                / batch_size)))).
Proof.
  intros Hpos. unfold batches, py_range.
  destruct (Z.eqb_spec batch_size 0); [lia|].
  rewrite range_loop_spec by lia. rewrite Z.sub_0_r, map_map.
  f_equal. apply map_ext_in. intros k Hk. apply in_seq in Hk.
  rewrite py_slice_nonneg by lia.
  f_equal; [f_equal; lia | f_equal; lia].
Qed.

Lemma fetch_article_details_batches (w : world) (pmcids : list pystr)
    (batch_size : Z) (bs : list (list pystr)) (t : trace) :
  batches pmcids batch_size = Some bs ->
  fetch_article_details w pmcids batch_size t = for_each bs (process_batch w) [] t.
Proof.
  unfold batches, fetch_article_details.
  destruct (py_range 0 (Z.of_nat (length pmcids)) batch_size) as [starts|];
    [|discriminate].
  intros [= <-]. rewrite for_each_map. reflexivity.
Qed.

(** C3: with a positive batch size B the loop of [fetch_article_details]
    visits ceil(N/B) batches; batch number k is the slice of the identifier
    list that starts at position k*B and has at most B items, so that the
    batches, put end to end, are the list itself. *)
Theorem batches_partition (pmcids : list pystr) (batch_size : Z) :
  0 < batch_size ->
  exists bs : list (list pystr),
    batches pmcids batch_size = Some bs
    /\ (forall w t,
          fetch_article_details w pmcids batch_size t
            = for_each bs (process_batch w) [] t)
    /\ Z.of_nat (length bs) = (Z.of_nat (length pmcids) + batch_size - 1) / batch_size
    /\ (Z.of_nat (length bs) - 1) * batch_size < Z.of_nat (length pmcids)
         <= Z.of_nat (length bs) * batch_size
    /\ bs = map (fun k => take (Z.to_nat batch_size)
                            (drop (k * Z.to_nat batch_size) pmcids))
                (seq 0 (length bs))
    /\ concat bs = pmcids.
Proof.
  intros Hpos. pose proof (batches_spec pmcids batch_size Hpos) as Hbs.
  set (N := Z.of_nat (length pmcids)) in *.
  set (q := (N + batch_size - 1) / batch_size) in *.
  assert (Hq0 : 0 <= q) by (apply Z.div_pos; lia).
  assert (Hlo : batch_size * q <= N + batch_size - 1)
    by (apply Z.mul_div_le; lia).
  assert (Hhi : N + batch_size - 1 < batch_size * Z.succ q)
    by (apply Z.mul_succ_div_gt; lia).
  eexists. split; [exact Hbs|].
  rewrite length_map, length_seq.
  repeat split.
  - intros w t. apply fetch_article_details_batches, Hbs.
  - lia.
  - nia.
  - nia.
  - apply concat_chunks. nia.
Qed.

Lemma batches_partition_witness :
  exists bs : list (list pystr),
    batches sample_ids 5 = Some bs /\ length bs = 2%nat /\ concat bs = sample_ids.
Proof.
  destruct (batches_partition sample_ids 5) as (bs & Hbs & _ & _ & Hceil & _ & Hcat).
  - lia.
  - exists bs. split; [exact Hbs|]. split; [|exact Hcat].
    change (Z.of_nat (length sample_ids)) with 7 in Hceil. lia.
Defined.

(** ** Records *)

Lemma fig_loop_spec (cdn_links : list string) (figs : list element) :
  forall acc,
    foldl (fig_step cdn_links) acc figs =
      (acc.1 ++ map (fun fig => text_or "No caption" (find path_caption_p fig)) figs,
       acc.2 ++ map (resolve_image cdn_links) figs).
Proof.
  induction figs as [|fig figs IH]; intros [cs ims].
  - simpl. rewrite !app_nil_r. reflexivity.
  - cbn [foldl map]. rewrite IH. unfold fig_step. cbn [fst snd].
    rewrite <- !app_assoc. reflexivity.
Qed.

Lemma page_url_not_eutils (pmc_id : pystr) : eutils_url (page_url pmc_id) = false.
Proof. reflexivity. Qed.

Lemma count_app (p : event -> bool) (t added : trace) :
  count p (t ++ added) = (count p t + count p added)%nat.
Proof. unfold count. rewrite List.filter_app, length_app. reflexivity. Qed.

(** Whatever its outcome, [fetch_cdn_links] makes one request, for the page,
    and at most prints after it. *)
Lemma fetch_cdn_links_history (w : world) (pmc_id : pystr) (t : trace) :
  exists o diag,
    fetch_cdn_links w pmc_id t = (o, t ++ Get (page_url pmc_id) :: diag)
    /\ count is_page_get diag = 0%nat
    /\ count is_eutils_get diag = 0%nat
    /\ count is_write diag = 0%nat.
Proof.
  unfold fetch_cdn_links. unfold_script.
  destruct (http_get w t (page_url pmc_id)) as [e|status_code content];
    [|destruct (is_error_status status_code);
      [|destruct (as_html content) as [soup|]]];
    rewrite <- ?app_assoc; eexists _, _; (split; [reflexivity|]);
    repeat split; reflexivity.
Qed.

Lemma fetch_cdn_links_accepted (w : world) (pmc_id : pystr) (t : trace) :
  page_accepted w t pmc_id ->
  exists cdn_links t', fetch_cdn_links w pmc_id t = (Returns cdn_links, t').
Proof.
  intros Hpage. unfold fetch_cdn_links. unfold_script.
  destruct (http_get w t (page_url pmc_id)) as [e|status_code content] eqn:Hget;
    [eauto|].
  destruct (is_error_status status_code) eqn:Hstatus; [eauto|].
  pose proof (Hpage status_code content Hget Hstatus) as Hsoup.
  destruct (as_html content) as [soup|]; [eauto | congruence].
Qed.

(** The links of a record are those of the article's own page, fetched once
    for the article. *)
Lemma article_step_links (w : world) (acc : list article_record)
    (article : element) (t : trace) :
  article_step w acc article t =
    (let! cdn_links := fetch_cdn_links w (text_or "No PMCID" (find path_pmc_id article)) in
     ret (acc ++ [record_of article cdn_links])) t.
Proof.
  unfold article_step, bind.
  destruct (fetch_cdn_links w _ t) as [[links|e] t']; [|reflexivity].
  rewrite fig_loop_spec. reflexivity.
Qed.

Lemma article_step_inv (w : world) (acc acc' : list article_record)
    (article : element) (t t' : trace) :
  article_step w acc article t = (Returns acc', t') ->
  exists cdn_links,
    fetch_cdn_links w (text_or "No PMCID" (find path_pmc_id article)) t
      = (Returns cdn_links, t')
    /\ acc' = acc ++ [record_of article cdn_links].
Proof.
  rewrite article_step_links. unfold bind, ret.
  destruct (fetch_cdn_links w _ t) as [[links|e] t1]; [|discriminate].
  intros [= <- <-]. exists links. split; reflexivity.
Qed.

Lemma article_step_accepted (w : world) (acc : list article_record)
    (article : element) (t : trace) :
  page_accepted w t (text_or "No PMCID" (find path_pmc_id article)) ->
  exists cdn_links t',
    article_step w acc article t = (Returns (acc ++ [record_of article cdn_links]), t').
Proof.
  intros Hpage.
  destruct (fetch_cdn_links_accepted _ _ _ Hpage) as (links & t' & Hlinks).
  exists links, t'. rewrite article_step_links. unfold bind. rewrite Hlinks.
  reflexivity.
Qed.

(** What holds of the state and the history before a loop and is kept by
    its body holds after it. *)
Lemma for_each_invariant {A S} (P : A -> Prop) (I : S -> trace -> Prop)
    (body : S -> A -> M S) (xs : list A) :
  (forall s x t s' t', P x -> I s t -> body s x t = (Returns s', t') -> I s' t') ->
  Forall P xs ->
  forall s t s' t', I s t -> for_each xs body s t = (Returns s', t') -> I s' t'.
Proof.
  intros Hbody. induction 1 as [|x xs Hx _ IH]; intros s t s' t' Hs Hrun.
  - injection Hrun as <- <-. exact Hs.
  - cbn [for_each] in Hrun. unfold bind in Hrun.
    destruct (body s x t) as [[s1|e] t1] eqn:Hstep; [|discriminate].
    eapply IH; [|exact Hrun]. eapply Hbody; [exact Hx | exact Hs | exact Hstep].
Qed.

Lemma requested_at_mono (t' h more : trace) (url : string) :
  requested_at t' h url -> requested_at (t' ++ more) h url.
Proof.
  intros [rest ->]. exists (rest ++ more). rewrite <- app_assoc. reflexivity.
Qed.

Lemma recorded_mono (w : world) (t t' more : trace) (r : article_record) :
  recorded w t t' r -> recorded w t (t' ++ more) r.
Proof.
  intros (article & links & Harticle & Hlinks & Hr).
  exists article, links. split; [|split; [|exact Hr]].
  - destruct Harticle as (h & ids & sc & content & root & Hpre & Hreq & Hrest).
    exists h, ids, sc, content, root.
    split; [exact Hpre|]. split; [apply requested_at_mono, Hreq | exact Hrest].
  - destruct Hlinks as (h & h' & Hpre & Hreq & Hfetch).
    exists h, h'. split; [exact Hpre|].
    split; [apply requested_at_mono, Hreq | exact Hfetch].
Qed.

Lemma article_step_recorded (w : world) (t : trace) (acc acc' : list article_record)
    (article : element) (tc tc' : trace) :
  t `prefix_of` tc ->
  received_article w t tc article ->
  Forall (recorded w t tc) acc ->
  article_step w acc article tc = (Returns acc', tc') ->
  (exists more, tc' = tc ++ more) /\ Forall (recorded w t tc') acc'.
Proof.
  intros Hpre Harticle Hacc Hstep.
  apply article_step_inv in Hstep as (links & Hfetch & ->).
  destruct (fetch_cdn_links_history w
              (text_or "No PMCID" (find path_pmc_id article)) tc)
    as (o & diag & Hhist & _).
  rewrite Hfetch in Hhist. injection Hhist as _ ->.
  split; [eexists; reflexivity|].
  apply Forall_app. split.
  - eapply Forall_impl; [exact Hacc|]. intros r Hr. apply recorded_mono, Hr.
  - constructor; [|constructor].
    exists article, links. split; [|split; [|reflexivity]].
    + destruct Harticle as (h & ids & sc & content & root & Hp & Hreq & Hrest).
      exists h, ids, sc, content, root.
      split; [exact Hp|]. split; [apply requested_at_mono, Hreq | exact Hrest].
    + exists tc, (tc ++ Get (page_url (text_or "No PMCID" (find path_pmc_id article)))
                       :: diag).
      split; [exact Hpre|]. split; [eexists; reflexivity | exact Hfetch].
Qed.

Lemma process_batch_recorded (w : world) (t : trace) (acc acc' : list article_record)
    (batch : list pystr) (tc tc' : trace) :
  t `prefix_of` tc ->
  Forall (recorded w t tc) acc ->
  process_batch w acc batch tc = (Returns acc', tc') ->
  t `prefix_of` tc' /\ Forall (recorded w t tc') acc'.
Proof.
  intros [pre ->] Hacc. unfold process_batch.
  destruct (join "," batch) as [ids|]; [|discriminate].
  unfold_script.
  destruct (http_get w (t ++ pre) (efetch_url ids)) as [e|status_code content] eqn:Hget;
    [|destruct (is_error_status status_code) eqn:Hstatus].
  - intros [= <- <-]. split.
    + eexists. rewrite <- !app_assoc. reflexivity.
    + eapply Forall_impl; [exact Hacc|]. intros r Hr.
      rewrite <- app_assoc. apply recorded_mono, Hr.
  - intros [= <- <-]. split.
    + eexists. rewrite <- !app_assoc. reflexivity.
    + eapply Forall_impl; [exact Hacc|]. intros r Hr.
      rewrite <- app_assoc. apply recorded_mono, Hr.
  - destruct (as_xml content) as [root|] eqn:Hxml; [|discriminate].
    unfold ret. intros Hloop.
    assert (Hinv :
      (exists more, tc' = ((t ++ pre) ++ [Get (efetch_url ids)]) ++ more)
      /\ Forall (recorded w t tc') acc').
    { apply (for_each_invariant
               (fun article => article ∈ findall path_article root)
               (fun a tcur =>
                  (exists more, tcur = ((t ++ pre) ++ [Get (efetch_url ids)]) ++ more)
                  /\ Forall (recorded w t tcur) a)
               (article_step w) (findall path_article root))
        with (s := acc) (t := (t ++ pre) ++ [Get (efetch_url ids)]).
      - intros a article tcur a' tcur' Hin [[more ->] Ha] Hstep.
        destruct (article_step_recorded w t a a' article
                    (((t ++ pre) ++ [Get (efetch_url ids)]) ++ more) tcur')
          as [[k ->] Hall]; [ | | exact Ha | exact Hstep | ].
        + eexists. rewrite <- !app_assoc. reflexivity.
        + exists (t ++ pre), ids, status_code, content, root.
          split; [eexists; reflexivity|].
          split; [eexists; rewrite <- !app_assoc; reflexivity|].
          repeat split; assumption.
        + split; [|exact Hall]. eexists. rewrite <- !app_assoc. reflexivity.
      - apply List.Forall_forall. intros x Hx. apply list_elem_of_In, Hx.
      - split; [exists []; rewrite app_nil_r; reflexivity|].
        eapply Forall_impl; [exact Hacc|]. intros r Hr. apply recorded_mono, Hr.
      - exact Hloop. }
    destruct Hinv as [[more ->] Hall]. split; [|exact Hall].
    eexists. rewrite <- !app_assoc. reflexivity.
Qed.

Lemma fetch_article_details_recorded (w : world) (pmcids : list pystr)
    (batch_size : Z) (t t' : trace) (details : list article_record) :
  fetch_article_details w pmcids batch_size t = (Returns details, t') ->
  Forall (recorded w t t') details.
Proof.
  unfold fetch_article_details.
  destruct (py_range 0 (Z.of_nat (length pmcids)) batch_size) as [starts|];
    [|discriminate].
  intros Hrun.
  apply (for_each_invariant (fun _ => True)
           (fun a tcur => t `prefix_of` tcur /\ Forall (recorded w t tcur) a)
           (batch_step w pmcids batch_size) starts) with (s := []) (t := t) (s' := details).
  - intros a x tcur a' tcur' _ [Hpre Ha] Hstep. unfold batch_step in Hstep.
    eapply process_batch_recorded; eassumption.
  - apply List.Forall_forall. intros; exact I.
  - split; [exists []; rewrite app_nil_r; reflexivity | constructor].
  - exact Hrun.
Qed.

(** C2: in every record that [fetch_article_details] returns, [captions] and
    [images] have the same length, and both are read off the figure
    elements, in document order, of one article that a metadata response of
    this run held: entry i of [captions] is the caption of figure i, and
    entry i of [images] is figure i resolved against the links that the page
    of the record's identifier gave in this run. *)
Theorem captions_images_aligned (w : world) (pmcids : list pystr)
    (batch_size : Z) (t t' : trace) (details : list article_record) :
  fetch_article_details w pmcids batch_size t = (Returns details, t') ->
  Forall (fun r =>
            length (captions r) = length (images r)
            /\ exists article cdn_links,
                 received_article w t t' article
                 /\ received_links w t t' (pmcid r) cdn_links
                 /\ pmcid r = text_or "No PMCID" (find path_pmc_id article)
                 /\ captions r =
                      map (fun fig => text_or "No caption" (find path_caption_p fig))
                          (findall path_fig article)
                 /\ images r =
                      map (resolve_image cdn_links) (findall path_fig article))
         details.
Proof.
  intros Hrun. apply fetch_article_details_recorded in Hrun.
  eapply Forall_impl; [exact Hrun|].
  intros r (article & links & Harticle & Hlinks & ->).
  cbn [record_of captions images pmcid] in *. split.
  - rewrite !length_map. reflexivity.
  - exists article, links. repeat split; assumption.
Qed.

Lemma captions_images_aligned_witness :
  Forall (fun r =>
            length (captions r) = length (images r)
            /\ exists article cdn_links,
                 received_article scenario []
                   (fetch_article_details scenario [Some "111"; Some "222"] 5 []).2
                   article
                 /\ received_links scenario []
                      (fetch_article_details scenario [Some "111"; Some "222"] 5 []).2
                      (pmcid r) cdn_links
                 /\ pmcid r = text_or "No PMCID" (find path_pmc_id article)
                 /\ captions r =
                      map (fun fig => text_or "No caption" (find path_caption_p fig))
                          (findall path_fig article)
                 /\ images r =
                      map (resolve_image cdn_links) (findall path_fig article))
         scenario_details.
Proof.
  apply (captions_images_aligned scenario [Some "111"; Some "222"] 5 []
           (fetch_article_details scenario [Some "111"; Some "222"] 5 []).2).
  vm_compute. reflexivity.
Defined.

(** The scenario of the specification, run from the command line to the
    output file. *)
Example scenario_run :
  run scenario scenario_args =
    (Returns tt,
     [Get (esearch_url "pmc" "cancer imaging" 2);
      Print (Retrieved 2 [Some "111"; Some "222"]);
      Get (efetch_url "111,222");
      Get (page_url (Some "111"));
      Get (page_url (Some "222"));
      WriteFile "cancer imaging_2_20240101_000000.json" scenario_details;
      Print (Saved "cancer imaging_2_20240101_000000.json")]).
Proof. vm_compute. reflexivity. Qed.

(** ** Fallback sentinels *)




(** C9: the claim promises a string for every figure, but a caption
    paragraph that opens with a child element has no [.text]; the script
    then appends [None], and neither the caption's words nor "No caption"
    reach the record. *)
Theorem caption_without_leading_text :
  find path_caption_p fig_bold_caption = Some p_bold
  /\ text p_bold = None
  /\ fig_step sample_links ([], []) fig_bold_caption
       = ([None], ["https://cdn.ncbi.nlm.nih.gov/pmc/blobs/g1.jpg"])
  /\ (forall acc, exists t',
        article_step offline acc (Element "article" ∅ None [fig_bold_caption]) []
          = (Returns (acc ++ [ArticleRecord (Some "No PMCID") (Some "No title")
                                (Some "No abstract") [None] ["No Match Found"]]),
             t')).
Proof.
  split; [|split; [|split]]; try (vm_compute; reflexivity).
  intros acc. eexists. reflexivity.
Qed.

(** ** Transport failures *)

Lemma try_get_failed (w : world) (url : string) (t : trace) :
  failed (http_get w t url) = true ->
  exists e, try_get w url t = (Returns (inl e), t ++ [Get url]).
Proof.
  unfold failed, try_get.
  destruct (http_get w t url) as [e|status_code content].
  - intros _. eexists. reflexivity.
  - intros ->. eexists. reflexivity.
Qed.

Lemma fetch_pmc_ids_failed (w : world) (term db : string) (retmax : Z) (t : trace) :
  failed (http_get w t (esearch_url db term retmax)) = true ->
  exists e,
    fetch_pmc_ids w term db retmax t
      = (Returns [], t ++ [Get (esearch_url db term retmax); Print (FailedIds e)]).
Proof.
  intros Hfail. destruct (try_get_failed _ _ _ Hfail) as [e He].
  exists e. unfold fetch_pmc_ids, bind. rewrite He.
  unfold print, emit, ret. rewrite <- app_assoc. reflexivity.
Qed.

(** C6: when the search request fails, [fetch_pmc_ids] returns the empty
    list and the run ends successfully after one request and two diagnostic
    lines: no metadata request is made and no file is written. *)
Theorem search_failure_ends_run (w : world) (a : args) :
  failed (http_get w [] (esearch_url "pmc" (term a) (retmax a))) = true ->
  exists e,
    fetch_pmc_ids w (term a) "pmc" (retmax a) []
      = (Returns [], [Get (esearch_url "pmc" (term a) (retmax a)); Print (FailedIds e)])
    /\ run w a
         = (Returns tt,
            [Get (esearch_url "pmc" (term a) (retmax a));
             Print (FailedIds e);
             Print (Retrieved 0 [])]).
Proof.
  intros Hfail. destruct (fetch_pmc_ids_failed _ _ _ _ _ Hfail) as [e He].
  exists e. split; [exact He|].
  unfold run, main, bind. rewrite He. reflexivity.
Qed.

Lemma search_failure_ends_run_witness :
  exists e,
    fetch_pmc_ids offline "cancer imaging" "pmc" 2 []
      = (Returns [], [Get (esearch_url "pmc" "cancer imaging" 2); Print (FailedIds e)])
    /\ run offline scenario_args
         = (Returns tt,
            [Get (esearch_url "pmc" "cancer imaging" 2);
             Print (FailedIds e);
             Print (Retrieved 0 [])]).
Proof.
  apply (search_failure_ends_run offline scenario_args). reflexivity.
Defined.

Lemma prepend_app {A} (acc l : list A) (r : outcome (list A) * trace) :
  prepend acc (prepend l r) = prepend (acc ++ l) r.
Proof.
  destruct r as [[l'|e] t]; simpl; [rewrite app_assoc|]; reflexivity.
Qed.

Lemma for_each_app {A S} (body : S -> A -> M S) (xs ys : list A) :
  forall s t,
    for_each (xs ++ ys) body s t = bind (for_each xs body s) (for_each ys body) t.
Proof.
  induction xs as [|x xs IH]; intros s t; [reflexivity|].
  cbn [app for_each]. unfold bind.
  destruct (body s x t) as [[s'|e] t']; [|reflexivity].
  rewrite IH. reflexivity.
Qed.

Lemma for_each_prepend {A R} (body : list R -> A -> M (list R)) (xs : list A) :
  (forall acc x t, body acc x t = prepend acc (body [] x t)) ->
  forall acc t, for_each xs body acc t = prepend acc (for_each xs body [] t).
Proof.
  intros Hbody. induction xs as [|x xs IH]; intros acc t.
  - simpl. unfold ret. rewrite app_nil_r. reflexivity.
  - cbn [for_each]. unfold bind. rewrite (Hbody acc).
    destruct (body [] x t) as [[l|e] t']; [|reflexivity].
    cbn [prepend]. rewrite (IH (acc ++ l)), (IH l), prepend_app. reflexivity.
Qed.

Lemma article_step_prepend (w : world) (acc : list article_record)
    (article : element) (t : trace) :
  article_step w acc article t = prepend acc (article_step w [] article t).
Proof.
  rewrite !article_step_links. unfold bind.
  destruct (fetch_cdn_links w _ t) as [[links|e] t']; reflexivity.
Qed.

Lemma process_batch_prepend (w : world) (acc : list article_record)
    (batch : list pystr) (t : trace) :
  process_batch w acc batch t = prepend acc (process_batch w [] batch t).
Proof.
  unfold process_batch. destruct (join "," batch) as [ids|]; [|reflexivity].
  unfold_script.
  destruct (http_get w t (efetch_url ids)) as [e|status_code content].
  - simpl. rewrite app_nil_r. reflexivity.
  - destruct (is_error_status status_code).
    + simpl. rewrite app_nil_r. reflexivity.
    + destruct (as_xml content) as [root|]; [|reflexivity].
      apply for_each_prepend. intros. apply article_step_prepend.
Qed.

Lemma process_batch_failed (w : world) (acc : list article_record)
    (batch : list pystr) (ids : string) (t : trace) :
  join "," batch = Some ids ->
  failed (http_get w t (efetch_url ids)) = true ->
  exists e,
    process_batch w acc batch t
      = (Returns acc, t ++ [Get (efetch_url ids); Print (FailedBatch batch e)]).
Proof.
  intros Hjoin Hfail. destruct (try_get_failed _ _ _ Hfail) as [e He].
  exists e. unfold process_batch. rewrite Hjoin. unfold bind. rewrite He.
  unfold print, emit, ret. rewrite <- app_assoc. reflexivity.
Qed.

(** C7: when the request of one batch fails, the loop body leaves the list
    of records as the earlier batches made it, and the remaining batches are
    processed after it: the result is the records of the earlier batches
    followed by the records the later batches produce on their own. *)
Theorem failed_batch_skipped (w : world) (pmcids : list pystr) (batch_size : Z)
    (before after : list (list pystr)) (batch : list pystr) (ids : string)
    (earlier : list article_record) (t t1 : trace) :
  batches pmcids batch_size = Some (before ++ batch :: after) ->
  for_each before (process_batch w) [] t = (Returns earlier, t1) ->
  join "," batch = Some ids ->
  failed (http_get w t1 (efetch_url ids)) = true ->
  exists e,
    let t2 := t1 ++ [Get (efetch_url ids); Print (FailedBatch batch e)] in
    process_batch w earlier batch t1 = (Returns earlier, t2)
    /\ fetch_article_details w pmcids batch_size t
         = prepend earlier (for_each after (process_batch w) [] t2).
Proof.
  intros Hbs Hbefore Hjoin Hfail.
  destruct (process_batch_failed w earlier batch ids t1 Hjoin Hfail) as [e He].
  exists e. cbv zeta. split; [exact He|].
  rewrite (fetch_article_details_batches _ _ _ _ _ Hbs), for_each_app.
  unfold bind. rewrite Hbefore. cbn [for_each]. unfold bind. rewrite He.
  apply for_each_prepend. intros. apply process_batch_prepend.
Qed.

Lemma failed_batch_skipped_witness :
  exists e,
    let t2 := [] ++ [Get (efetch_url "101,102,103,104,105");
                     Print (FailedBatch (take 5 sample_ids) e)] in
    process_batch first_batch_down [] (take 5 sample_ids) [] = (Returns [], t2)
    /\ fetch_article_details first_batch_down sample_ids 5 []
         = prepend [] (for_each [drop 5 sample_ids]
                                (process_batch first_batch_down) [] t2).
Proof.
  apply (failed_batch_skipped first_batch_down sample_ids 5
           [] [drop 5 sample_ids] (take 5 sample_ids)
           "101,102,103,104,105" [] [] []);
    vm_compute; reflexivity.
Defined.

(** With the first of two batches down, the records of the second batch are
    the whole result. *)
Example first_batch_down_run :
  (fetch_article_details first_batch_down sample_ids 5 []).1 =
    Returns
      [ArticleRecord (Some "111") (Some "A title") None [Some "Figure 1"]
         ["No Match Found"];
       ArticleRecord (Some "222") (Some "A title") None [Some "Figure 1"]
         ["No Match Found"]].
Proof. vm_compute. reflexivity. Qed.

(** ** Completion of the run *)




Lemma html_well_formed_page (w : world) (t : trace) (pmc_id : pystr) :
  html_well_formed w -> page_accepted w t pmc_id.
Proof.
  intros Hhtml status_code content Hget Hstatus.
  exact (Hhtml t _ status_code content (page_url_not_eutils pmc_id) Hget Hstatus).
Qed.






Example garbled_search_run :
  run garbled_search scenario_args
    = (Raises ParseError, [Get (esearch_url "pmc" "cancer imaging" 2)]).
Proof. vm_compute. reflexivity. Qed.

(** A page that the HTML parser rejects ends the stage as well: the
    exception is raised outside the handler of [fetch_cdn_links]. *)
Example page_rejected_run :
  fetch_article_details page_rejected [Some "111"] 5 []
    = (Raises ParserRejectedMarkup,
       [Get (efetch_url "111"); Get (page_url (Some "111"))]).
Proof. vm_compute. reflexivity. Qed.


(** * Further properties of the script *)

(** ** Image resolution: the request and its failure *)

(** X1: [fetch_cdn_links] makes exactly one request, for the article's
    page, whatever its outcome.  When the request fails it prints one
    diagnostic line and returns the empty list.  When the page arrives it
    prints nothing, and returns the page's links if the HTML parser takes
    the body; if the parser rejects it, the exception is not caught. *)
Theorem fetch_cdn_links_one_request (w : world) (pmc_id : pystr) (t : trace) :
  exists o diag,
    fetch_cdn_links w pmc_id t = (o, t ++ Get (page_url pmc_id) :: diag)
    /\ match http_get w t (page_url pmc_id) with
       | ConnectionError e =>
           o = Returns [] /\ diag = [Print (FailedPage pmc_id (RequestFailed e))]
       | HttpResponse status_code content =>
           if is_error_status status_code
           then o = Returns []
                /\ diag = [Print (FailedPage pmc_id (HTTPError status_code))]
           else diag = []
                /\ o = match as_html content with
                       | Some soup => Returns (cdn_links_of soup)
                       | None => Raises ParserRejectedMarkup
                       end
       end.
Proof.
  unfold fetch_cdn_links. unfold_script.
  destruct (http_get w t (page_url pmc_id)) as [e|status_code content];
    [|destruct (is_error_status status_code);
      [|destruct (as_html content) as [soup|]]];
    rewrite <- ?app_assoc; eexists _, _; repeat split; reflexivity.
Qed.

(** ** Identifier search *)

Lemma findall_esearch_document (count : string) (ids : list string) :
  findall path_Id (esearch_document count ids) = map (leaf "Id") ids.
Proof.
  unfold findall, path_Id, esearch_document. cbn [foldl select flat_map children].
  rewrite app_nil_r. cbn [iter flat_map leaf app List.filter].
  replace (has_tag "Id" (Element "Count" ∅ (Some count) [])) with false
    by (vm_compute; reflexivity).
  replace (has_tag "Id" (Element "IdList" ∅ None (map (leaf "Id") ids))) with false
    by (vm_compute; reflexivity).
  rewrite app_nil_r.
  induction ids as [|x ids IH]; [reflexivity|].
  cbn [map flat_map iter leaf app List.filter].
  replace (has_tag "Id" (Element "Id" ∅ (Some x) [])) with true
    by (vm_compute; reflexivity).
  f_equal. exact IH.
Qed.

(** X2: the identifiers of a search result come back as they stand in its
    [IdList]: same order, duplicates kept, after a single request. *)
Theorem fetch_pmc_ids_document_order (w : world) (term db : string) (retmax : Z)
    (t : trace) (status_code : Z) (count : string) (ids : list string)
    (page : option element) :
  http_get w t (esearch_url db term retmax)
    = HttpResponse status_code (Body (Some (esearch_document count ids)) page) ->
  is_error_status status_code = false ->
  fetch_pmc_ids w term db retmax t
    = (Returns (map Some ids), t ++ [Get (esearch_url db term retmax)]).
Proof.
  intros Hget Hstatus. unfold fetch_pmc_ids. unfold_script.
  rewrite Hget, Hstatus. cbn [as_xml]. unfold ret.
  rewrite findall_esearch_document, map_map. reflexivity.
Qed.

Lemma fetch_pmc_ids_document_order_witness :
  fetch_pmc_ids scenario "cancer imaging" "pmc" 2 []
    = (Returns (map Some ["111"; "222"]),
       [] ++ [Get (esearch_url "pmc" "cancer imaging" 2)]).
Proof.
  apply (fetch_pmc_ids_document_order scenario "cancer imaging" "pmc" 2 []
           200 "2" ["111"; "222"] (Some empty_page)); vm_compute; reflexivity.
Defined.

(** X3: a search response that arrives with a success status but is not
    well-formed XML ends the run at once: [ParseError] is not caught, the
    exit status is 1, and the search request is all that happened. *)
Theorem malformed_search_aborts (w : world) (a : args)
    (status_code : Z) (content : body) :
  http_get w [] (esearch_url "pmc" (term a) (retmax a))
    = HttpResponse status_code content ->
  is_error_status status_code = false ->
  as_xml content = None ->
  run w a = (Raises ParseError, [Get (esearch_url "pmc" (term a) (retmax a))])
  /\ exit_status w a = 1.
Proof.
  intros Hget Hstatus Hxml.
  assert (Hrun : run w a
                 = (Raises ParseError, [Get (esearch_url "pmc" (term a) (retmax a))])).
  { unfold run, main, fetch_pmc_ids. unfold_script.
    rewrite Hget, Hstatus, Hxml. reflexivity. }
  split; [exact Hrun|]. unfold exit_status. rewrite Hrun. reflexivity.
Qed.

Lemma malformed_search_aborts_witness :
  run garbled_search scenario_args
    = (Raises ParseError, [Get (esearch_url "pmc" "cancer imaging" 2)])
  /\ exit_status garbled_search scenario_args = 1.
Proof.
  apply (malformed_search_aborts garbled_search scenario_args 200
           (html_body empty_page)); reflexivity.
Defined.

(** ** Identifiers without text *)

Lemma join_None_iff (sep : string) (xs : list pystr) :
  join sep xs = None <-> None ∈ xs.
Proof.
  induction xs as [|x xs IH].
  - split; [discriminate | intros H; inversion H].
  - destruct xs as [|y xs].
    + cbn [join]. split.
      * intros ->. constructor.
      * intros H. apply list_elem_of_singleton in H. congruence.
    + change (join sep (x :: y :: xs))
        with (match x, join sep (y :: xs) with
              | Some s, Some r => Some (s +:+ sep +:+ r)
              | _, _ => None
              end).
      rewrite elem_of_cons. destruct x as [s|].
      * destruct (join sep (y :: xs)) as [r|].
        -- split; [discriminate|]. intros [H|H]; [discriminate|].
           apply IH in H. discriminate.
        -- split; [|reflexivity]. intros _. right. apply IH. reflexivity.
      * split; [|reflexivity]. intros _. left. reflexivity.
Qed.

Lemma process_batch_join_fails (w : world) (acc : list article_record)
    (batch : list pystr) (t : trace) :
  None ∈ batch ->
  process_batch w acc batch t = (Raises TypeError, t).
Proof.
  intros Hnone. apply (join_None_iff ",") in Hnone.
  unfold process_batch. rewrite Hnone. reflexivity.
Qed.

(** X4: a batch that holds an identifier without text ([None]) raises
    [TypeError] when its identifiers are joined, before any request is made
    for it: the history is unchanged and the records gathered so far are
    lost. *)
Theorem none_identifier_type_error (w : world) (acc : list article_record)
    (batch : list pystr) (t : trace) :
  None ∈ batch ->
  process_batch w acc batch t = (Raises TypeError, t).
Proof. apply process_batch_join_fails. Qed.

Lemma none_identifier_type_error_witness :
  process_batch scenario [] [Some "111"; None] [] = (Raises TypeError, []).
Proof.
  apply (none_identifier_type_error scenario [] [Some "111"; None] []).
  apply elem_of_cons. right. apply elem_of_cons. left. reflexivity.
Defined.

Lemma for_each_raises {A S} (P : A -> Prop) (body : S -> A -> M S) (xs : list A) :
  (forall s x t, P x -> exists e t', body s x t = (Raises e, t')) ->
  Exists P xs ->
  forall s t, exists e t', for_each xs body s t = (Raises e, t').
Proof.
  intros Hbody. induction 1 as [x xs Hx | x xs _ IH]; intros s t.
  - destruct (Hbody s x t Hx) as (e & t' & He).
    exists e, t'. cbn [for_each]. unfold bind. rewrite He. reflexivity.
  - cbn [for_each]. unfold bind.
    destruct (body s x t) as [[s'|e] t']; [apply IH | eauto].
Qed.

Lemma batches_concat (pmcids : list pystr) (batch_size : Z) :
  0 < batch_size ->
  exists bs, batches pmcids batch_size = Some bs /\ concat bs = pmcids.
Proof.
  intros Hpos. eexists. split; [apply batches_spec, Hpos|].
  apply concat_chunks.
  pose proof (Z.mul_succ_div_gt (Z.of_nat (length pmcids) + batch_size - 1)
                batch_size Hpos) as Hhi.
  assert (0 <= (Z.of_nat (length pmcids) + batch_size - 1) / batch_size)
    by (apply Z.div_pos; lia).
  nia.
Qed.

(** X5: with a positive batch size, an identifier list that holds [None]
    somewhere makes [fetch_article_details] end in an uncaught exception,
    whatever the network answers; no list of records is returned. *)
Theorem none_identifier_stage_raises (w : world) (pmcids : list pystr)
    (batch_size : Z) (t : trace) :
  0 < batch_size ->
  None ∈ pmcids ->
  exists e t', fetch_article_details w pmcids batch_size t = (Raises e, t').
Proof.
  intros Hpos Hnone.
  destruct (batches_concat pmcids batch_size Hpos) as (bs & Hbs & Hcat).
  rewrite (fetch_article_details_batches _ _ _ _ _ Hbs).
  apply (for_each_raises (fun batch => None ∈ batch)).
  - intros s x t0 Hx. exists TypeError, t0.
    apply process_batch_join_fails, Hx.
  - rewrite <- Hcat in Hnone. apply list_elem_of_In, in_concat in Hnone
      as (batch & Hin & Hb).
    apply List.Exists_exists. exists batch.
    split; [exact Hin | apply list_elem_of_In, Hb].
Qed.

Lemma none_identifier_stage_raises_witness :
  exists e t',
    fetch_article_details scenario [Some "111"; None; Some "222"] 5 []
      = (Raises e, t').
Proof.
  apply (none_identifier_stage_raises scenario [Some "111"; None; Some "222"] 5 []).
  - lia.
  - apply elem_of_cons. right. apply elem_of_cons. left. reflexivity.
Defined.

(** ** Batch sizes that are not positive, and the empty list *)

(** X6: with a batch size that is not positive, or with an empty identifier
    list, the stage makes no request and leaves the history as it is: a
    zero batch size is rejected by [range] with [ValueError], even for the
    empty list; otherwise the loop has nothing to visit and the result is
    the empty list. *)
Theorem nothing_to_fetch (w : world) (pmcids : list pystr) (batch_size : Z)
    (t : trace) :
  batch_size <= 0 \/ pmcids = [] ->
  fetch_article_details w pmcids batch_size t
    = (if batch_size =? 0 then Raises ValueError else Returns [], t).
Proof.
  intros H. unfold fetch_article_details, py_range.
  destruct (Z.eqb_spec batch_size 0) as [->|Hne]; [reflexivity|].
  destruct H as [Hneg | ->]; [|reflexivity].
  destruct (Z.to_nat (Z.abs (Z.of_nat (length pmcids) - 0))) as [|fuel];
    [reflexivity|].
  cbn [range_loop].
  destruct (Z.ltb_spec 0 batch_size); [lia|].
  destruct (Z.ltb_spec (Z.of_nat (length pmcids)) 0); [lia|]. reflexivity.
Qed.

Lemma nothing_to_fetch_witness :
  fetch_article_details scenario sample_ids (-5) [] = (Returns [], [])
  /\ fetch_article_details scenario sample_ids 0 [] = (Raises ValueError, [])
  /\ fetch_article_details scenario [] 5 [] = (Returns [], []).
Proof.
  split; [|split].
  - apply (nothing_to_fetch scenario sample_ids (-5) []). left. lia.
  - apply (nothing_to_fetch scenario sample_ids 0 []). left. lia.
  - apply (nothing_to_fetch scenario [] 5 []). right. reflexivity.
Defined.

(** X7: with a positive batch size no batch is empty and none has more
    than [batch_size] identifiers; every batch but the last has exactly
    [batch_size]. *)
Theorem batch_lengths (pmcids : list pystr) (batch_size : Z) :
  0 < batch_size ->
  exists bs : list (list pystr),
    batches pmcids batch_size = Some bs
    /\ Forall (fun batch => 1 <= Z.of_nat (length batch) <= batch_size) bs
    /\ (forall (k : nat) (batch : list pystr),
          bs !! k = Some batch -> (S k < length bs)%nat ->
          Z.of_nat (length batch) = batch_size).
Proof.
  intros Hpos. eexists. split; [apply batches_spec, Hpos|].
  set (N := Z.of_nat (length pmcids)).
  set (q := (N + batch_size - 1) / batch_size).
  assert (Hq0 : 0 <= q) by (apply Z.div_pos; lia).
  assert (Hlo : batch_size * q <= N + batch_size - 1)
    by (apply Z.mul_div_le; lia).
  split.
  - apply Forall_map, List.Forall_forall. intros k Hk. apply in_seq in Hk.
    rewrite length_take, length_drop. nia.
  - intros k batch Hk Hlast. rewrite length_map, length_seq in Hlast.
    change (map ?f ?l) with (f <$> l) in Hk.
    apply list_lookup_fmap_Some in Hk as (j & -> & Hj).
    apply lookup_seq in Hj as [-> _].
    rewrite length_take, length_drop. nia.
Qed.

Lemma batch_lengths_witness :
  exists bs : list (list pystr),
    batches sample_ids 5 = Some bs
    /\ Forall (fun batch => 1 <= Z.of_nat (length batch) <= 5) bs
    /\ (forall (k : nat) (batch : list pystr),
          bs !! k = Some batch -> (S k < length bs)%nat ->
          Z.of_nat (length batch) = 5).
Proof. apply (batch_lengths sample_ids 5). lia. Defined.

(** ** What a run requests and writes *)

Lemma articles_loop_history (w : world) (articles : list element) :
  forall (acc : list article_record) (t : trace)
         (o : outcome (list article_record)) (t' : trace),
    for_each articles (article_step w) acc t = (o, t') ->
    exists added,
      t' = t ++ added
      /\ count is_eutils_get added = 0%nat
      /\ count is_write added = 0%nat
      /\ match o with
         | Returns acc' =>
             exists recs,
               acc' = acc ++ recs
               /\ length recs = length articles
               /\ count is_page_get added = length articles
         | Raises _ => True
         end.
Proof.
  induction articles as [|article articles IH]; intros acc t o t' Hrun.
  - injection Hrun as <- <-. exists []. rewrite app_nil_r.
    repeat split. exists []. rewrite app_nil_r. repeat split.
  - cbn [for_each] in Hrun. unfold bind in Hrun.
    rewrite article_step_links in Hrun. unfold bind in Hrun.
    destruct (fetch_cdn_links_history w
                (text_or "No PMCID" (find path_pmc_id article)) t)
      as (o1 & diag & Hfetch & Hp1 & He1 & Hw1).
    rewrite Hfetch in Hrun. destruct o1 as [links|e].
    + unfold ret in Hrun.
      destruct (IH _ _ _ _ Hrun) as (added & -> & He2 & Hw2 & Hrest).
      eexists. rewrite <- app_assoc. split; [reflexivity|].
      change (Get ?u :: diag ++ added) with ((Get u :: diag) ++ added).
      rewrite !count_app.
      change (count is_eutils_get (Get ?u :: diag)) with (count is_eutils_get diag).
      change (count is_write (Get ?u :: diag)) with (count is_write diag).
      split; [lia|]. split; [lia|].
      destruct o as [acc'|e]; [|exact I].
      destruct Hrest as (recs & -> & Hlen & Hp2).
      exists (record_of article links :: recs). rewrite <- app_assoc.
      split; [reflexivity|]. cbn [length]. split; [lia|].
      change (count is_page_get (Get ?u :: diag)) with (S (count is_page_get diag)).
      lia.
    + injection Hrun as <- <-. eexists. split; [reflexivity|].
      change (count is_eutils_get (Get ?u :: diag)) with (count is_eutils_get diag).
      change (count is_write (Get ?u :: diag)) with (count is_write diag).
      repeat split; assumption.
Qed.

Lemma process_batch_history (w : world) (acc : list article_record)
    (batch : list pystr) (t : trace) (o : outcome (list article_record))
    (t' : trace) :
  process_batch w acc batch t = (o, t') ->
  exists added,
    t' = t ++ added
    /\ count is_write added = 0%nat
    /\ match o with
       | Returns acc' =>
           exists recs,
             acc' = acc ++ recs
             /\ count is_page_get added = length recs
             /\ count is_eutils_get added = 1%nat
       | Raises _ => True
       end.
Proof.
  unfold process_batch. destruct (join "," batch) as [ids|].
  - unfold_script.
    destruct (http_get w t (efetch_url ids)) as [e|status_code content];
      [|destruct (is_error_status status_code)].
    + intros [= <- <-]. rewrite <- app_assoc. eexists. split; [reflexivity|].
      split; [reflexivity|]. exists []. rewrite app_nil_r. repeat split; reflexivity.
    + intros [= <- <-]. rewrite <- app_assoc. eexists. split; [reflexivity|].
      split; [reflexivity|]. exists []. rewrite app_nil_r. repeat split; reflexivity.
    + destruct (as_xml content) as [root|].
      * unfold ret. intros Hloop.
        destruct (articles_loop_history _ _ _ _ _ _ Hloop)
          as (added & -> & He & Hw & Hrest).
        rewrite <- app_assoc. eexists. split; [reflexivity|]. rewrite !count_app.
        split; [rewrite Hw; reflexivity|].
        destruct o as [acc'|e]; [|exact I].
        destruct Hrest as (recs & -> & Hlen & Hp).
        exists recs. rewrite Hp, He, Hlen. repeat split; reflexivity.
      * intros [= <- <-]. eexists. split; [reflexivity|].
        split; [reflexivity | exact I].
  - intros [= <- <-]. exists []. rewrite app_nil_r.
    split; [reflexivity|]. split; [reflexivity | exact I].
Qed.

Lemma batches_loop_history (w : world) (bs : list (list pystr)) :
  forall (acc : list article_record) (t : trace)
         (o : outcome (list article_record)) (t' : trace),
    for_each bs (process_batch w) acc t = (o, t') ->
    exists added,
      t' = t ++ added
      /\ count is_write added = 0%nat
      /\ match o with
         | Returns acc' =>
             exists recs,
               acc' = acc ++ recs
               /\ count is_page_get added = length recs
               /\ count is_eutils_get added = length bs
         | Raises _ => True
         end.
Proof.
  induction bs as [|batch bs IH]; intros acc t o t' Hrun.
  - injection Hrun as <- <-. exists []. rewrite app_nil_r.
    split; [reflexivity|]. split; [reflexivity|].
    exists []. rewrite app_nil_r. repeat split; reflexivity.
  - cbn [for_each] in Hrun. unfold bind in Hrun.
    destruct (process_batch w acc batch t) as [[acc1|e] t1] eqn:Hbatch.
    + destruct (process_batch_history _ _ _ _ _ _ Hbatch)
        as (added1 & -> & Hw1 & recs1 & -> & Hp1 & He1).
      destruct (IH _ _ _ _ Hrun) as (added2 & -> & Hw2 & Hrest).
      exists (added1 ++ added2). rewrite <- app_assoc, !count_app.
      split; [reflexivity|]. split; [lia|].
      destruct o as [acc'|e]; [|exact I].
      destruct Hrest as (recs2 & -> & Hp2 & He2).
      exists (recs1 ++ recs2). rewrite <- app_assoc, length_app. cbn [length].
      repeat split; lia.
    + injection Hrun as <- <-.
      destruct (process_batch_history _ _ _ _ _ _ Hbatch) as (added1 & -> & Hw1 & _).
      exists added1. split; [reflexivity|]. split; [exact Hw1 | exact I].
Qed.

Lemma fetch_article_details_history (w : world) (pmcids : list pystr)
    (batch_size : Z) (t : trace) (o : outcome (list article_record)) (t' : trace) :
  fetch_article_details w pmcids batch_size t = (o, t') ->
  exists added,
    t' = t ++ added
    /\ count is_write added = 0%nat
    /\ match o with
       | Returns details =>
           exists bs,
             batches pmcids batch_size = Some bs
             /\ count is_page_get added = length details
             /\ count is_eutils_get added = length bs
       | Raises _ => True
       end.
Proof.
  destruct (batches pmcids batch_size) as [bs|] eqn:Hbs.
  - rewrite (fetch_article_details_batches _ _ _ _ _ Hbs). intros Hrun.
    destruct (batches_loop_history _ _ _ _ _ _ Hrun) as (added & -> & Hw & Hrest).
    exists added. split; [reflexivity|]. split; [exact Hw|].
    destruct o as [details|e]; [|exact I].
    destruct Hrest as (recs & -> & Hp & He). exists bs. repeat split; assumption.
  - unfold batches in Hbs. unfold fetch_article_details.
    destruct (py_range 0 (Z.of_nat (length pmcids)) batch_size); [discriminate|].
    intros [= <- <-]. exists []. rewrite app_nil_r.
    split; [reflexivity|]. split; [reflexivity | exact I].
Qed.

(** X8: when [fetch_article_details] returns, it has made one metadata
    request per batch and one page request per record it returns, and has
    written no file. *)
Theorem requests_per_batch_and_record (w : world) (pmcids : list pystr)
    (batch_size : Z) (t t' : trace) (details : list article_record) :
  fetch_article_details w pmcids batch_size t = (Returns details, t') ->
  exists bs added,
    batches pmcids batch_size = Some bs
    /\ t' = t ++ added
    /\ count is_eutils_get added = length bs
    /\ count is_page_get added = length details
    /\ count is_write added = 0%nat.
Proof.
  intros Hrun.
  destruct (fetch_article_details_history _ _ _ _ _ _ Hrun)
    as (added & -> & Hw & bs & Hbs & Hp & He).
  exists bs, added. repeat split; assumption.
Qed.

Lemma requests_per_batch_and_record_witness :
  exists bs added,
    batches [Some "111"; Some "222"] 5 = Some bs
    /\ (fetch_article_details scenario [Some "111"; Some "222"] 5 []).2 = [] ++ added
    /\ count is_eutils_get added = length bs
    /\ count is_page_get added = length scenario_details
    /\ count is_write added = 0%nat.
Proof.
  apply (requests_per_batch_and_record scenario [Some "111"; Some "222"] 5 []).
  vm_compute. reflexivity.
Defined.

Lemma fetch_pmc_ids_history (w : world) (term db : string) (retmax : Z)
    (t : trace) (o : outcome (list pystr)) (t' : trace) :
  fetch_pmc_ids w term db retmax t = (o, t') ->
  exists added, t' = t ++ added /\ count is_write added = 0%nat.
Proof.
  unfold fetch_pmc_ids. unfold_script.
  destruct (http_get w t (esearch_url db term retmax)) as [e|status_code content];
    [|destruct (is_error_status status_code);
      [|destruct (as_xml content) as [root|]]];
    intros [= <- <-]; rewrite <- ?app_assoc; eexists; split; reflexivity.
Qed.

(** X9: a run that ends in an uncaught [ParseError], parser rejection or
    [TypeError], the exceptions of the search and metadata stages, has
    written no file: the records it had gathered by then are lost. *)
Theorem exception_leaves_no_file (w : world) (a : args) (e : exn) (t : trace) :
  run w a = (Raises e, t) ->
  e = ParseError \/ e = ParserRejectedMarkup \/ e = TypeError ->
  count is_write t = 0%nat.
Proof.
  intros Hrun _. revert Hrun.
  unfold run, main, bind.
  destruct (fetch_pmc_ids w (term a) "pmc" (retmax a) []) as [[pmcids|e1] t1] eqn:Hids.
  - destruct (fetch_pmc_ids_history _ _ _ _ _ _ _ Hids) as (added1 & -> & Hw1).
    unfold print at 1, emit. destruct pmcids as [|x pmcids]; [discriminate|].
    destruct (fetch_article_details w (x :: pmcids) 5 _) as [[details|e2] t2] eqn:Hdetails.
    + destruct (fetch_article_details_history _ _ _ _ _ _ Hdetails)
        as (added2 & -> & Hw2 & _).
      unfold now, dump_to.
      destruct (can_open w _ _); [discriminate|].
      intros [= <- <-]. rewrite !count_app, Hw1, Hw2. reflexivity.
    + destruct (fetch_article_details_history _ _ _ _ _ _ Hdetails)
        as (added2 & -> & Hw2 & _).
      intros [= <- <-]. rewrite !count_app, Hw1, Hw2. reflexivity.
  - destruct (fetch_pmc_ids_history _ _ _ _ _ _ _ Hids) as (added1 & -> & Hw1).
    intros [= <- <-]. exact Hw1.
Qed.

Lemma exception_leaves_no_file_witness :
  count is_write (run garbled_search scenario_args).2 = 0%nat.
Proof.
  apply (exception_leaves_no_file garbled_search scenario_args ParseError).
  - vm_compute. reflexivity.
  - left. reflexivity.
Defined.

(** X10: a run that returns either found no identifier, and then wrote no
    file, or ends by writing one file and announcing it: the file is named
    after the term, the result cap and the time at which the details were
    complete, and it holds exactly the records that
    [fetch_article_details] returned. *)
Theorem run_returns_output (w : world) (a : args) (t : trace) :
  run w a = (Returns tt, t) ->
  exists pmcids t1,
    fetch_pmc_ids w (term a) "pmc" (retmax a) [] = (Returns pmcids, t1)
    /\ ((pmcids = []
         /\ t = t1 ++ [Print (Retrieved 0 [])]
         /\ count is_write t = 0%nat)
        \/ (pmcids <> []
            /\ exists details t2,
                 fetch_article_details w pmcids 5
                   (t1 ++ [Print (Retrieved (length pmcids) pmcids)])
                   = (Returns details, t2)
                 /\ t = t2 ++ [WriteFile (output_filename a (clock w t2)) details;
                               Print (Saved (output_filename a (clock w t2)))]
                 /\ count is_write t = 1%nat)).
Proof.
  unfold run, main, bind.
  destruct (fetch_pmc_ids w (term a) "pmc" (retmax a) []) as [[pmcids|e1] t1] eqn:Hids;
    [|discriminate].
  destruct (fetch_pmc_ids_history _ _ _ _ _ _ _ Hids) as (added1 & Ht1 & Hw1).
  cbn [app] in Ht1. subst t1.
  unfold print at 1, emit. intros Hrun. exists pmcids, added1.
  split; [reflexivity|].
  destruct pmcids as [|x pmcids].
  - left. injection Hrun as <-. rewrite count_app, Hw1.
    repeat split; reflexivity.
  - right. split; [discriminate|].
    destruct (fetch_article_details w (x :: pmcids) 5 _) as [[details|e2] t2] eqn:Hdetails;
      [|discriminate].
    destruct (fetch_article_details_history _ _ _ _ _ _ Hdetails)
      as (added2 & Ht2 & Hw2 & _).
    unfold now, dump_to, print, emit, output_filename in *.
    destruct (can_open w t2 _); [|discriminate].
    injection Hrun as <-. exists details, t2.
    split; [reflexivity|]. rewrite <- app_assoc. split; [reflexivity|].
    subst t2. rewrite !count_app, Hw1, Hw2. reflexivity.
Qed.

Lemma run_returns_output_witness :
  exists pmcids t1,
    fetch_pmc_ids scenario (term scenario_args) "pmc" (retmax scenario_args) []
      = (Returns pmcids, t1)
    /\ ((pmcids = []
         /\ (run scenario scenario_args).2 = t1 ++ [Print (Retrieved 0 [])]
         /\ count is_write (run scenario scenario_args).2 = 0%nat)
        \/ (pmcids <> []
            /\ exists details t2,
                 fetch_article_details scenario pmcids 5
                   (t1 ++ [Print (Retrieved (length pmcids) pmcids)])
                   = (Returns details, t2)
                 /\ (run scenario scenario_args).2
                    = t2 ++ [WriteFile (output_filename scenario_args (clock scenario t2))
                               details;
                             Print (Saved (output_filename scenario_args
                                             (clock scenario t2)))]
                 /\ count is_write (run scenario scenario_args).2 = 1%nat)).
Proof.
  apply (run_returns_output scenario scenario_args). vm_compute. reflexivity.
Defined.




(** X12: when the output file cannot be opened, the run ends in an uncaught
    [OSError] with exit status 1, after all requests have been made; the
    records are lost. *)
Theorem unwritable_output_os_error (w : world) (a : args)
    (pmcids : list pystr) (details : list article_record) (t1 t2 : trace) :
  fetch_pmc_ids w (term a) "pmc" (retmax a) [] = (Returns pmcids, t1) ->
  pmcids <> [] ->
  fetch_article_details w pmcids 5
    (t1 ++ [Print (Retrieved (length pmcids) pmcids)]) = (Returns details, t2) ->
  can_open w t2 (output_filename a (clock w t2)) = false ->
  run w a = (Raises OSError, t2) /\ exit_status w a = 1.
Proof.
  intros Hids Hne Hdetails Hopen.
  assert (Hrun : run w a = (Raises OSError, t2)).
  { unfold run, main, bind. rewrite Hids. unfold print at 1, emit.
    destruct pmcids as [|x pmcids]; [congruence|].
    rewrite Hdetails. unfold now, dump_to, output_filename in *.
    rewrite Hopen. reflexivity. }
  split; [exact Hrun|]. unfold exit_status. rewrite Hrun. reflexivity.
Qed.

Lemma unwritable_output_os_error_witness :
  run read_only scenario_args
    = (Raises OSError,
       (fetch_article_details read_only [Some "111"; Some "222"] 5
          ([Get (esearch_url "pmc" "cancer imaging" 2)]
           ++ [Print (Retrieved (length [Some "111"; Some "222"])
                        [Some "111"; Some "222"])])).2)
  /\ exit_status read_only scenario_args = 1.
Proof.
  apply (unwritable_output_os_error read_only scenario_args
           [Some "111"; Some "222"] scenario_details
           [Get (esearch_url "pmc" "cancer imaging" 2)]).
  - vm_compute. reflexivity.
  - discriminate.
  - vm_compute. reflexivity.
  - reflexivity.
Defined.

(** ** A metadata response that is not XML *)

(** X13: unlike a failed request, a metadata response that arrives with a
    success status but is not well-formed XML ends the whole stage:
    [ParseError] is raised right after the request, the records of the
    earlier batches are not returned and the later batches are never
    requested. *)
Theorem malformed_batch_aborts (w : world) (pmcids : list pystr) (batch_size : Z)
    (before after : list (list pystr)) (batch : list pystr) (ids : string)
    (earlier : list article_record) (t t1 : trace)
    (status_code : Z) (content : body) :
  batches pmcids batch_size = Some (before ++ batch :: after) ->
  for_each before (process_batch w) [] t = (Returns earlier, t1) ->
  join "," batch = Some ids ->
  http_get w t1 (efetch_url ids) = HttpResponse status_code content ->
  is_error_status status_code = false ->
  as_xml content = None ->
  fetch_article_details w pmcids batch_size t
    = (Raises ParseError, t1 ++ [Get (efetch_url ids)]).
Proof.
  intros Hbs Hbefore Hjoin Hget Hstatus Hxml.
  rewrite (fetch_article_details_batches _ _ _ _ _ Hbs), for_each_app.
  unfold bind. rewrite Hbefore. cbn [for_each]. unfold bind, process_batch.
  rewrite Hjoin. unfold_script. rewrite Hget, Hstatus, Hxml. reflexivity.
Qed.

Lemma malformed_batch_aborts_witness :
  fetch_article_details second_batch_garbled sample_ids 5 []
    = (Raises ParseError,
       (for_each [take 5 sample_ids] (process_batch second_batch_garbled) [] []).2
       ++ [Get (efetch_url "106,107")]).
Proof.
  apply (malformed_batch_aborts second_batch_garbled sample_ids 5
           [take 5 sample_ids] [] (drop 5 sample_ids) "106,107"
           [ArticleRecord (Some "111") (Some "A title") None [Some "Figure 1"]
              ["No Match Found"];
            ArticleRecord (Some "222") (Some "A title") None [Some "Figure 1"]
              ["No Match Found"]]
           [] _ 200 (html_body empty_page));
    vm_compute; reflexivity.
Defined.

(** ** Records of a batch *)

Lemma articles_loop_records (w : world) (articles : list element) :
  html_well_formed w ->
  forall (acc : list article_record) (t : trace),
  exists recs t',
    for_each articles (article_step w) acc t = (Returns (acc ++ recs), t')
    /\ Forall2 (fun r article => exists links, r = record_of article links)
               recs articles.
Proof.
  intros Hhtml. induction articles as [|article articles IH]; intros acc t.
  - exists [], t. rewrite app_nil_r. split; [reflexivity | constructor].
  - destruct (article_step_accepted w acc article t
                (html_well_formed_page _ _ _ Hhtml)) as (links & t1 & Hstep).
    destruct (IH (acc ++ [record_of article links]) t1) as (recs & t' & Hloop & Hall).
    exists (record_of article links :: recs), t'.
    cbn [for_each]. unfold bind. rewrite Hstep, Hloop, <- app_assoc.
    split; [reflexivity|]. constructor; [eexists; reflexivity | exact Hall].
Qed.

(** X14: a batch whose response parses, in a world whose article pages are
    markup the HTML parser takes, adds exactly one record per [article]
    element of the response, in document order, after the records already
    gathered; each record is read off its own article, and only its images
    depend on what the article's page gave.  How many identifiers the batch
    had plays no part. *)
Theorem one_record_per_article (w : world) (acc : list article_record)
    (batch : list pystr) (ids : string) (t : trace)
    (status_code : Z) (content : body) (root : element) :
  html_well_formed w ->
  join "," batch = Some ids ->
  http_get w t (efetch_url ids) = HttpResponse status_code content ->
  is_error_status status_code = false ->
  as_xml content = Some root ->
  exists recs t',
    process_batch w acc batch t = (Returns (acc ++ recs), t')
    /\ Forall2 (fun r article => exists links, r = record_of article links)
               recs (findall path_article root).
Proof.
  intros Hhtml Hjoin Hget Hstatus Hxml.
  destruct (articles_loop_records w (findall path_article root) Hhtml acc
              (t ++ [Get (efetch_url ids)])) as (recs & t' & Hloop & Hall).
  exists recs, t'. split; [|exact Hall].
  unfold process_batch. rewrite Hjoin. unfold_script.
  rewrite Hget, Hstatus, Hxml. unfold ret. exact Hloop.
Qed.

Lemma one_record_per_article_witness :
  exists recs t',
    process_batch scenario [] [Some "111"; Some "222"] []
      = (Returns ([] ++ recs), t')
    /\ Forall2 (fun r article => exists links, r = record_of article links)
               recs (findall path_article scenario_articles).
Proof.
  apply (one_record_per_article scenario [] [Some "111"; Some "222"] "111,222" []
           200 (xml_body scenario_articles) scenario_articles);
    try (vm_compute; reflexivity).
  intros t url status_code content Hurl Hget Hstatus.
  unfold scenario in Hget. cbn [http_get] in Hget.
  repeat case_bool_decide; subst; injection Hget as <- <-;
    try discriminate Hurl; try discriminate Hstatus; discriminate.
Defined.

(** X15: an article without [article-title] gets the title "No title", one
    without [abstract] the abstract "No abstract", and a figure without a
    paragraph in a caption gets the caption "No caption" at its own
    position (the article's page, if it arrives, being markup the HTML
    parser takes). *)
Theorem missing_fields_fallback (w : world) (acc : list article_record)
    (article : element) (t : trace) :
  page_accepted w t (text_or "No PMCID" (find path_pmc_id article)) ->
  exists r t',
    article_step w acc article t = (Returns (acc ++ [r]), t')
    /\ (find path_article_title article = None -> title r = Some "No title")
    /\ (find path_abstract article = None -> abstract r = Some "No abstract")
    /\ (forall (i : nat) (fig : element),
          findall path_fig article !! i = Some fig ->
          find path_caption_p fig = None ->
          captions r !! i = Some (Some "No caption")).
Proof.
  intros Hpage.
  destruct (article_step_accepted w acc article t Hpage) as (links & t' & Hstep).
  exists (record_of article links), t'. split; [exact Hstep|].
  cbn [record_of title abstract captions]. repeat split.
  - intros ->. reflexivity.
  - intros ->. reflexivity.
  - intros i fig Hi Hcap.
    change (map ?f ?l) with (f <$> l). rewrite list_lookup_fmap, Hi.
    cbn [fmap option_fmap option_map]. rewrite Hcap. reflexivity.
Qed.

Lemma missing_fields_fallback_witness :
  exists r t',
    article_step offline [] (Element "article" ∅ None [Element "fig" ∅ None []]) []
      = (Returns [r], t')
    /\ title r = Some "No title"
    /\ abstract r = Some "No abstract"
    /\ captions r = [Some "No caption"].
Proof.
  destruct (missing_fields_fallback offline []
              (Element "article" ∅ None [Element "fig" ∅ None []]) [])
    as (r & t' & Hstep & Htitle & Habstract & Hcaptions).
  { intros status_code content Hget. discriminate Hget. }
  exists r, t'. split; [exact Hstep|].
  split; [apply Htitle; reflexivity|].
  split; [apply Habstract; reflexivity|].
  vm_compute in Hstep. injection Hstep as <- _. reflexivity.
Defined.

(** ** What an image entry can be *)

Lemma first_match_cases (href : string) (cdn_links : list string) :
  first_match href cdn_links = "No Match Found"
  \/ (first_match href cdn_links ∈ cdn_links
      /\ substring_of href (first_match href cdn_links)).
Proof.
  unfold first_match.
  destruct (List.find (contains href) cdn_links) as [url|] eqn:Hfind.
  - right. apply find_some in Hfind as [Hin Hurl]. cbn [default].
    split; [apply list_elem_of_In, Hin | apply contains_spec, Hurl].
  - left. reflexivity.
Qed.

(** X16: an image entry is "No image URL", or "No Match Found", or one of
    the article's CDN links, and then the figure's graphic reference is not
    empty and occurs in it.  The script never builds an image URL of its
    own. *)
Theorem image_entry_cases (cdn_links : list string) (fig : element) :
  resolve_image cdn_links fig = "No image URL"
  \/ resolve_image cdn_links fig = "No Match Found"
  \/ (resolve_image cdn_links fig ∈ cdn_links
      /\ exists g href,
           find path_graphic fig = Some g
           /\ attrib g !! xlink_href = Some href
           /\ href <> ""
           /\ substring_of href (resolve_image cdn_links fig)).
Proof.
  unfold resolve_image.
  destruct (find path_graphic fig) as [g|]; [|left; reflexivity].
  destruct (attrib g !! xlink_href) as [href|] eqn:Hhref; [|left; reflexivity].
  destruct href as [|c href]; [left; reflexivity|]. cbn [truthy].
  destruct (first_match_cases (String c href) cdn_links) as [Hnone | [Hin Hsub]].
  - right. left. exact Hnone.
  - right. right. split; [exact Hin|].
    exists g, (String c href).
    split; [reflexivity|]. split; [exact Hhref|].
    split; [discriminate | exact Hsub].
Qed.

Lemma resolve_image_no_links (fig : element) :
  image_sentinel (resolve_image [] fig).
Proof.
  unfold resolve_image, image_sentinel.
  destruct (find path_graphic fig) as [g|]; [|left; reflexivity].
  destruct (attrib g !! xlink_href) as [[|c href]|];
    [left | right | left]; reflexivity.
Qed.

(** X17: when the request for an article's page fails, the article still
    gets its record, built with an empty link list: one diagnostic line is
    printed and every image entry is one of the two sentinels. *)
Theorem failed_page_only_sentinels (w : world) (acc : list article_record)
    (article : element) (t : trace) :
  failed (http_get w t (page_url (text_or "No PMCID" (find path_pmc_id article))))
    = true ->
  exists e,
    article_step w acc article t
      = (Returns (acc ++ [record_of article []]),
         t ++ [Get (page_url (text_or "No PMCID" (find path_pmc_id article)));
               Print (FailedPage (text_or "No PMCID" (find path_pmc_id article)) e)])
    /\ Forall image_sentinel (images (record_of article [])).
Proof.
  intros Hfail. destruct (try_get_failed _ _ _ Hfail) as [e He].
  exists e. split.
  - rewrite article_step_links. unfold fetch_cdn_links, bind. rewrite He.
    unfold print, emit, ret. rewrite <- app_assoc. reflexivity.
  - cbn [record_of images]. apply Forall_map, List.Forall_forall. intros fig _.
    apply resolve_image_no_links.
Qed.

Lemma failed_page_only_sentinels_witness :
  exists e,
    article_step offline [] article_without_pmc_id []
      = (Returns ([] ++ [record_of article_without_pmc_id []]),
         [] ++ [Get (page_url (text_or "No PMCID"
                                 (find path_pmc_id article_without_pmc_id)));
                Print (FailedPage (text_or "No PMCID"
                                     (find path_pmc_id article_without_pmc_id)) e)])
    /\ Forall image_sentinel (images (record_of article_without_pmc_id [])).
Proof.
  apply (failed_page_only_sentinels offline [] article_without_pmc_id []).
  reflexivity.
Defined.

(** X18: when the graphic reference occurs in exactly one of the CDN links,
    that link is the image entry, wherever it stands in the list. *)
Theorem unique_match_resolved (cdn_links : list string) (fig g : element)
    (href url : string) :
  find path_graphic fig = Some g ->
  attrib g !! xlink_href = Some href ->
  href <> "" ->
  url ∈ cdn_links ->
  substring_of href url ->
  (forall other, other ∈ cdn_links -> substring_of href other -> other = url) ->
  resolve_image cdn_links fig = url.
Proof.
  intros Hg Hhref Hne Hin Hsub Hunique.
  rewrite (resolve_image_ref _ _ _ _ Hg Hhref Hne). unfold first_match.
  destruct (List.find (contains href) cdn_links) as [x|] eqn:Hfind.
  - apply find_some in Hfind as [Hx Hcx]. cbn [default].
    apply Hunique; [apply list_elem_of_In, Hx | apply contains_spec, Hcx].
  - apply list_elem_of_In in Hin.
    pose proof (find_none _ _ Hfind url Hin) as Hurl.
    apply contains_spec in Hsub. congruence.
Qed.

Lemma unique_match_resolved_witness :
  resolve_image
    ["https://cdn.ncbi.nlm.nih.gov/pmc/blobs/logo.png";
     "https://cdn.ncbi.nlm.nih.gov/pmc/blobs/g1.jpg"]
    (fig_with "Figure 1" (graphic_with "g1"))
  = "https://cdn.ncbi.nlm.nih.gov/pmc/blobs/g1.jpg".
Proof.
  apply (unique_match_resolved _ (fig_with "Figure 1" (graphic_with "g1"))
           (graphic_with "g1") "g1").
  - reflexivity.
  - reflexivity.
  - discriminate.
  - apply elem_of_cons. right. apply elem_of_cons. left. reflexivity.
  - apply contains_spec. vm_compute. reflexivity.
  - intros other Hin Hsub. apply contains_spec in Hsub.
    apply elem_of_cons in Hin as [-> | Hin].
    + vm_compute in Hsub. discriminate.
    + apply list_elem_of_singleton in Hin. exact Hin.
Defined.

(** ** The requests of an article and of a batch *)

(** X19: every article triggers exactly one page request, whatever comes of
    it, and the page is the one of the identifier that goes into the
    article's record: for an article without a [pmc] identifier the script
    requests the page of "No PMCID", and for an identifier element without
    text the page of "None". *)
Theorem page_request_of_record (w : world) (acc : list article_record)
    (article : element) (t : trace) :
  exists o diag,
    article_step w acc article t
      = (o, t ++ Get (page_url (text_or "No PMCID" (find path_pmc_id article)))
                   :: diag)
    /\ count is_page_get diag = 0%nat
    /\ (forall acc', o = Returns acc' ->
        exists r, acc' = acc ++ [r]
                  /\ pmcid r = text_or "No PMCID" (find path_pmc_id article))
    /\ (find path_pmc_id article = None ->
        page_url (text_or "No PMCID" (find path_pmc_id article))
          = "https://www.ncbi.nlm.nih.gov/pmc/articles/PMCNo PMCID/")
    /\ (forall e, find path_pmc_id article = Some e -> text e = None ->
        page_url (text_or "No PMCID" (find path_pmc_id article))
          = "https://www.ncbi.nlm.nih.gov/pmc/articles/PMCNone/").
Proof.
  rewrite article_step_links. unfold bind.
  destruct (fetch_cdn_links_history w
              (text_or "No PMCID" (find path_pmc_id article)) t)
    as (o1 & diag & Hfetch & Hp & _).
  rewrite Hfetch.
  assert (Hurls :
    (find path_pmc_id article = None ->
     page_url (text_or "No PMCID" (find path_pmc_id article))
       = "https://www.ncbi.nlm.nih.gov/pmc/articles/PMCNo PMCID/")
    /\ (forall e, find path_pmc_id article = Some e -> text e = None ->
        page_url (text_or "No PMCID" (find path_pmc_id article))
          = "https://www.ncbi.nlm.nih.gov/pmc/articles/PMCNone/")).
  { split.
    - intros ->. reflexivity.
    - intros e -> He. cbn [text_or]. rewrite He. reflexivity. }
  destruct o1 as [links|e]; eexists _, diag;
    (split; [reflexivity|]); (split; [exact Hp|]); (split; [|exact Hurls]).
  - intros acc' [= <-]. exists (record_of article links). split; reflexivity.
  - intros acc' Hacc. discriminate Hacc.
Qed.

Lemma page_request_of_record_witness :
  exists o diag,
    article_step offline [] article_without_pmc_id []
      = (o, Get "https://www.ncbi.nlm.nih.gov/pmc/articles/PMCNo PMCID/" :: diag).
Proof.
  destruct (page_request_of_record offline [] article_without_pmc_id [])
    as (o & diag & Hstep & _ & _ & Hurl & _).
  exists o, diag. rewrite <- Hurl; [exact Hstep | reflexivity].
Defined.

Lemma join_concat (sep : string) (xs : list string) :
  join sep (map Some xs) = Some (String.concat sep xs).
Proof.
  induction xs as [|x xs IH]; [reflexivity|].
  destruct xs as [|y xs]; [reflexivity|].
  change (join sep (map Some (x :: y :: xs)))
    with (match Some x, join sep (map Some (y :: xs)) with
          | Some s, Some r => Some (s +:+ sep +:+ r)
          | _, _ => None
          end).
  rewrite IH. reflexivity.
Qed.

(** X20: a batch of identifiers is requested with one URL that carries them
    separated by commas, in their order; this request is the first thing
    the batch does, whatever follows. *)
Theorem batch_request_url (w : world) (acc : list article_record)
    (ids : list string) (t : trace) :
  exists o rest,
    process_batch w acc (map Some ids) t
      = (o, t ++ Get ("https://eutils.ncbi.nlm.nih.gov/entrez/eutils/efetch.fcgi?db=pmc&id="
                      +:+ String.concat "," ids +:+ "&retmode=xml") :: rest)
    /\ count is_eutils_get rest = 0%nat.
Proof.
  unfold process_batch. rewrite join_concat. unfold_script.
  change ("https://eutils.ncbi.nlm.nih.gov/entrez/eutils/efetch.fcgi?db=pmc&id="
          +:+ String.concat "," ids +:+ "&retmode=xml")
    with (efetch_url (String.concat "," ids)).
  destruct (http_get w t (efetch_url (String.concat "," ids)))
    as [e|status_code content];
    [|destruct (is_error_status status_code);
      [|destruct (as_xml content) as [root|]]].
  - rewrite <- app_assoc. eexists _, _. split; reflexivity.
  - rewrite <- app_assoc. eexists _, _. split; reflexivity.
  - unfold ret.
    destruct (for_each (findall path_article root) (article_step w) acc
                (t ++ [Get (efetch_url (String.concat "," ids))]))
      as [o t'] eqn:Hloop.
    destruct (articles_loop_history _ _ _ _ _ _ Hloop) as (added & -> & He & _).
    rewrite <- app_assoc. eexists _, _. split; [reflexivity | exact He].
  - eexists _, []. split; reflexivity.
Qed.



(** X22: the search stage makes exactly one request, the search itself,
    however it ends: a failure is not retried. *)
Theorem search_one_request (w : world) (term db : string) (retmax : Z) (t : trace) :
  exists o diag,
    fetch_pmc_ids w term db retmax t
      = (o, t ++ Get (esearch_url db term retmax) :: diag)
    /\ count is_eutils_get diag = 0%nat
    /\ count is_page_get diag = 0%nat.
Proof.
  unfold fetch_pmc_ids. unfold_script.
  destruct (http_get w t (esearch_url db term retmax)) as [e|status_code content];
    [|destruct (is_error_status status_code);
      [|destruct (as_xml content) as [root|]]];
    rewrite <- ?app_assoc; eexists _, _; repeat split; reflexivity.
Qed.
